(** * Projection engine of the financial-advisory front end

    Shallow embedding of the pure calculation functions of
    [src/components/FinancialPlanning.tsx] ([calculateRetirement],
    [calculateGoal], [calculateCompound]) and of
    [src/components/PortfolioAnalyzer.tsx] ([calculateMetrics]), and of the
    portfolio component's state handlers and derived views ([addHolding],
    [removeHolding], [getPortfolioAllocation], the labels of the risk
    panel).

    The React components keep their inputs in component state and the
    calculators close over it; here the state record is an explicit argument.

    ** Two embeddings of [number]

    The code is embedded twice, over two models of a TypeScript [number].

    The first, [JS.number], is an exact rational or one of the three special
    values [Infinity], [-Infinity], [NaN].  Its arithmetic follows
    ECMAScript's rules for the special values (division by zero,
    [Infinity - Infinity], [0 * Infinity], comparisons with [NaN],
    [Math.pow], [Math.ceil], [Math.min], [Math.max]), but finite results are
    not rounded and never overflow, and there is a single zero.  It carries
    the properties that do not depend on any of that: which fields of a
    result are [NaN] because of 0/0, the lookup tables, the list and form
    handlers, arithmetic on small integers, and the identities that the
    specification states over exact arithmetic.

    The second, [JS64.float64], is IEEE 754 binary64 as the standard library
    specifies it ([SpecFloat]): every operation is correctly rounded, large
    results overflow to an infinity, small ones underflow, and zeros are
    signed.  It carries the properties that depend on rounding, on overflow
    or on the sign of a zero: the months to a goal, the two scores of the
    portfolio, and the comparison of the retirement total with the future
    savings. *)

From Stdlib Require Import ZArith QArith Qcanon Qround Qpower Qabs.
From Stdlib Require Import List String Bool Lia Lqa.
From Stdlib Require SpecFloat.
Import ListNotations.

Local Open Scope Z_scope.

(** ** JavaScript numbers *)

Module JS.

Inductive number : Type :=
| Fin (q : Qc)
| PosInf
| NegInf
| NaN.

(** Literals: integers, and decimals written as a fraction. *)
Definition int (z : Z) : number := Fin (Q2Qc (inject_Z z)).
Definition frac (n : Z) (d : positive) : number := Fin (Q2Qc (n # d)).

Definition Qc0 : Qc := Q2Qc 0.
Definition Qc1 : Qc := Q2Qc 1.

Definition is_zero (q : Qc) : bool :=
  match Qccompare q Qc0 with Eq => true | _ => false end.

Definition inf_of_sign (c : comparison) : number :=
  match c with Gt => PosInf | Lt => NegInf | Eq => NaN end.

Definition neg (a : number) : number :=
  match a with
  | Fin q => Fin (Qcopp q)
  | PosInf => NegInf
  | NegInf => PosInf
  | NaN => NaN
  end.

(** [a + b] *)
Definition add (a b : number) : number :=
  match a, b with
  | NaN, _ | _, NaN => NaN
  | PosInf, NegInf | NegInf, PosInf => NaN
  | PosInf, _ | _, PosInf => PosInf
  | NegInf, _ | _, NegInf => NegInf
  | Fin x, Fin y => Fin (Qcplus x y)
  end.

(** [a - b] *)
Definition sub (a b : number) : number := add a (neg b).

(** [a * b] *)
Definition mul (a b : number) : number :=
  match a, b with
  | NaN, _ | _, NaN => NaN
  | Fin x, Fin y => Fin (Qcmult x y)
  | Fin x, PosInf | PosInf, Fin x => inf_of_sign (Qccompare x Qc0)
  | Fin x, NegInf | NegInf, Fin x => inf_of_sign (Qccompare Qc0 x)
  | PosInf, PosInf | NegInf, NegInf => PosInf
  | PosInf, NegInf | NegInf, PosInf => NegInf
  end.

(** [a / b]; a finite non-zero number over zero is an infinity, [0 / 0] is
    [NaN], nothing is raised. *)
Definition div (a b : number) : number :=
  match a, b with
  | NaN, _ | _, NaN => NaN
  | Fin x, Fin y =>
      if is_zero y then inf_of_sign (Qccompare x Qc0) else Fin (Qcdiv x y)
  | Fin _, PosInf | Fin _, NegInf => Fin Qc0
  | PosInf, Fin y =>
      match Qccompare y Qc0 with Lt => NegInf | _ => PosInf end
  | NegInf, Fin y =>
      match Qccompare y Qc0 with Lt => PosInf | _ => NegInf end
  | _, _ => NaN
  end.

(** [a > b] and [a >= b]; every comparison with [NaN] is false. *)
Definition gtb (a b : number) : bool :=
  match a, b with
  | NaN, _ | _, NaN => false
  | PosInf, PosInf => false
  | PosInf, _ => true
  | _, PosInf => false
  | NegInf, _ => false
  | Fin _, NegInf => true
  | Fin x, Fin y => match Qccompare x y with Gt => true | _ => false end
  end.

Definition eqb (a b : number) : bool :=
  match a, b with
  | Fin x, Fin y => Qeq_bool x y
  | PosInf, PosInf | NegInf, NegInf => true
  | _, _ => false
  end.

Definition geb (a b : number) : bool :=
  match a, b with
  | NaN, _ | _, NaN => false
  | _, _ => gtb a b || eqb a b
  end.

(** [Math.max(a, b)] and [Math.min(a, b)]: [NaN] if either argument is. *)
Definition Math_max (a b : number) : number :=
  match a, b with
  | NaN, _ | _, NaN => NaN
  | _, _ => if gtb b a then b else a
  end.

Definition Math_min (a b : number) : number :=
  match a, b with
  | NaN, _ | _, NaN => NaN
  | _, _ => if gtb a b then b else a
  end.

(** [Math.ceil(a)] *)
Definition Math_ceil (a : number) : number :=
  match a with
  | Fin q => int (Qceiling q)
  | _ => a
  end.

Definition is_integer (q : Qc) : bool := Pos.eqb (Qden q) 1.
Definition is_odd_integer (q : Qc) : bool := is_integer q && Z.odd (Qnum q).
Definition Qcabs (q : Qc) : Qc := Q2Qc (Qabs q).

Section Pow.

(** ECMAScript leaves the value of [Math.pow] at a positive base and a
    fractional exponent to the implementation ("an implementation-
    approximated value"); it is in general irrational.  That case is the
    parameter [pow_approx]; every other case is fixed by the standard
    (Number::exponentiate), and an integer exponent is computed exactly. *)
Variable pow_approx : Qc -> Qc -> number.

Definition Math_pow (base exponent : number) : number :=
  match exponent with
  | NaN => NaN
  | Fin e =>
      if is_zero e then int 1 else
      match base with
      | NaN => NaN
      | PosInf =>
          match Qccompare e Qc0 with Gt => PosInf | _ => int 0 end
      | NegInf =>
          match Qccompare e Qc0 with
          | Gt => if is_odd_integer e then NegInf else PosInf
          | _ => int 0
          end
      | Fin b =>
          if is_zero b then
            match Qccompare e Qc0 with Gt => int 0 | _ => PosInf end
          else if is_integer e then Fin (Q2Qc (Qpower b (Qnum e)))
          else match Qccompare b Qc0 with
               | Lt => NaN
               | _ => pow_approx b e
               end
      end
  | PosInf =>
      match base with
      | NaN => NaN
      | PosInf | NegInf => PosInf
      | Fin b =>
          match Qccompare (Qcabs b) Qc1 with
          | Gt => PosInf
          | Eq => NaN
          | Lt => int 0
          end
      end
  | NegInf =>
      match base with
      | NaN => NaN
      | PosInf | NegInf => int 0
      | Fin b =>
          match Qccompare (Qcabs b) Qc1 with
          | Gt => int 0
          | Eq => NaN
          | Lt => PosInf
          end
      end
  end.

End Pow.

(** An oracle for the fractional case of [Math.pow], for inputs whose
    exponents are integers: there the fractional case is never reached. *)
Definition no_approx : Qc -> Qc -> number := fun _ _ => NaN.

Definition is_finite (a : number) : bool :=
  match a with Fin _ => true | _ => false end.

Definition is_NaN (a : number) : bool :=
  match a with NaN => true | _ => false end.

(** [a < b], and the truthiness of a number: [0] and [NaN] are falsy. *)
Definition ltb (a b : number) : bool := gtb b a.

Definition truthy (a : number) : bool :=
  match a with
  | Fin q => negb (is_zero q)
  | NaN => false
  | _ => true
  end.

End JS.

Import JS.

Declare Scope js_scope.
Delimit Scope js_scope with js.
Bind Scope js_scope with number.
Infix "+" := add : js_scope.
Infix "-" := sub : js_scope.
Infix "*" := mul : js_scope.
Infix "/" := div : js_scope.

(** ** FinancialPlanning.tsx *)

Module FinancialPlanning.

Inductive RiskTolerance : Type := conservative | moderate | aggressive.

(** The [retirementData] state and the record [calculateRetirement] returns. *)
Module Retirement.
Record Data : Type := {
  currentAge : number;
  retirementAge : number;
  currentSavings : number;
  monthlyContribution : number;
  expectedReturn : number;
  currentIncome : number;
  replaceIncome : number
}.
Record Result : Type := {
  totalAtRetirement : number;
  neededCapital : number;
  surplus : number;
  monthlyIncomeAtRetirement : number
}.
End Retirement.

(** The [goalData] state and [PlanningResult]. *)
Module Goal.
Record Data : Type := {
  goalName : string;
  targetAmount : number;
  currentAmount : number;
  monthlyContribution : number;
  timeHorizon : number;
  riskTolerance : RiskTolerance
}.
Record Allocation : Type := {
  stocks : number;
  bonds : number;
  cash : number
}.
Record PlanningResult : Type := {
  monthsToGoal : number;
  totalContributions : number;
  expectedReturns : number;
  recommendedAllocation : Allocation
}.
End Goal.

(** The [compoundData] state and the record [calculateCompound] returns. *)
Module Compound.
Record Data : Type := {
  principal : number;
  monthlyContribution : number;
  annualReturn : number;
  years : number
}.
Record Result : Type := {
  totalValue : number;
  totalContributions : number;
  totalEarnings : number;
  returnMultiple : number
}.
End Compound.

(** The lookup tables of [calculateGoal]. *)
Definition returnRates (r : RiskTolerance) : number :=
  match r with
  | conservative => int 4
  | moderate => int 7
  | aggressive => int 10
  end.

Definition allocations (r : RiskTolerance) : Goal.Allocation :=
  match r with
  | conservative =>
      {| Goal.stocks := int 30; Goal.bonds := int 60; Goal.cash := int 10 |}
  | moderate =>
      {| Goal.stocks := int 60; Goal.bonds := int 30; Goal.cash := int 10 |}
  | aggressive =>
      {| Goal.stocks := int 80; Goal.bonds := int 15; Goal.cash := int 5 |}
  end.

(** [expectedReturn / 100 / 12] of [calculateGoal], by risk tier. *)
Definition goal_monthlyReturn (r : RiskTolerance) : number :=
  (returnRates r / int 100 / int 12)%js.

Section Calculators.

Variable pow_approx : Qc -> Qc -> number.
Let pow := Math_pow pow_approx.

(** The locals of [calculateRetirement], in the order of the source. *)
Definition yearsToRetirement (d : Retirement.Data) : number :=
  (Retirement.retirementAge d - Retirement.currentAge d)%js.

Definition monthsToRetirement (d : Retirement.Data) : number :=
  (yearsToRetirement d * int 12)%js.

Definition retirement_monthlyReturn (d : Retirement.Data) : number :=
  (Retirement.expectedReturn d / int 100 / int 12)%js.

Definition futureCurrentSavings (d : Retirement.Data) : number :=
  (Retirement.currentSavings d *
   pow (int 1 + Retirement.expectedReturn d / int 100) (yearsToRetirement d))%js.

Definition retirement_futureContributions (d : Retirement.Data) : number :=
  let monthlyReturn := retirement_monthlyReturn d in
  (Retirement.monthlyContribution d *
   ((pow (int 1 + monthlyReturn) (monthsToRetirement d) - int 1)
    / monthlyReturn))%js.

Definition calculateRetirement (retirementData : Retirement.Data)
  : Retirement.Result :=
  let totalAtRetirement :=
    (futureCurrentSavings retirementData
     + retirement_futureContributions retirementData)%js in
  let neededIncome :=
    ((Retirement.currentIncome retirementData
      * Retirement.replaceIncome retirementData) / int 100)%js in
  let annualNeed := neededIncome in
  let neededCapital := (annualNeed * int 25)%js in
  {| Retirement.totalAtRetirement := totalAtRetirement;
     Retirement.neededCapital := neededCapital;
     Retirement.surplus := (totalAtRetirement - neededCapital)%js;
     Retirement.monthlyIncomeAtRetirement :=
       (totalAtRetirement * frac 4 100 / int 12)%js |}.

(** [remaining] of [calculateGoal]. *)
Definition remaining (d : Goal.Data) : number :=
  (Goal.targetAmount d - Goal.currentAmount d)%js.

Definition goal_futureValue (d : Goal.Data) : number :=
  let expectedReturn := returnRates (Goal.riskTolerance d) in
  let monthlyReturn := (expectedReturn / int 100 / int 12)%js in
  (Goal.currentAmount d
   * pow (int 1 + expectedReturn / int 100) (Goal.timeHorizon d / int 12)
   + Goal.monthlyContribution d
     * ((pow (int 1 + monthlyReturn) (Goal.timeHorizon d) - int 1)
        / monthlyReturn))%js.

Definition calculateGoal (goalData : Goal.Data) : Goal.PlanningResult :=
  let remaining := remaining goalData in
  let monthsToGoal :=
    Math_ceil (remaining / Goal.monthlyContribution goalData)%js in
  let futureValue := goal_futureValue goalData in
  {| Goal.monthsToGoal := monthsToGoal;
     Goal.totalContributions :=
       (Goal.monthlyContribution goalData * Goal.timeHorizon goalData)%js;
     Goal.expectedReturns :=
       (futureValue - Goal.currentAmount goalData
        - (Goal.monthlyContribution goalData * Goal.timeHorizon goalData))%js;
     Goal.recommendedAllocation := allocations (Goal.riskTolerance goalData) |}.

Definition calculateCompound (compoundData : Compound.Data)
  : Compound.Result :=
  let monthlyReturn :=
    (Compound.annualReturn compoundData / int 100 / int 12)%js in
  let months := (Compound.years compoundData * int 12)%js in
  let futurePrincipal :=
    (Compound.principal compoundData
     * pow (int 1 + Compound.annualReturn compoundData / int 100)
           (Compound.years compoundData))%js in
  let futureContributions :=
    (Compound.monthlyContribution compoundData
     * ((pow (int 1 + monthlyReturn) months - int 1) / monthlyReturn))%js in
  let totalValue := (futurePrincipal + futureContributions)%js in
  let totalContributions :=
    (Compound.principal compoundData
     + Compound.monthlyContribution compoundData * months)%js in
  let totalEarnings := (totalValue - totalContributions)%js in
  {| Compound.totalValue := totalValue;
     Compound.totalContributions := totalContributions;
     Compound.totalEarnings := totalEarnings;
     Compound.returnMultiple := (totalValue / totalContributions)%js |}.

End Calculators.


(** The initial state of the retirement form with the rate field cleared:
    the handler stores [Number("")], which is 0. *)
Definition zero_rate_retirementData : Retirement.Data :=
  {| Retirement.currentAge := int 30;
     Retirement.retirementAge := int 65;
     Retirement.currentSavings := int 50000;
     Retirement.monthlyContribution := int 1000;
     Retirement.expectedReturn := int 0;
     Retirement.currentIncome := int 75000;
     Retirement.replaceIncome := int 80 |}.

End FinancialPlanning.

(** ** PortfolioAnalyzer.tsx *)

Module PortfolioAnalyzer.

Record Holding : Type := {
  symbol : string;
  shares : number;
  avgPrice : number;
  currentPrice : number
}.

Record PortfolioMetrics : Type := {
  totalValue : number;
  totalGainLoss : number;
  totalGainLossPercent : number;
  riskScore : number;
  diversificationScore : number
}.

(** The two accumulators [totalValue] and [totalCost] of [calculateMetrics],
    and the body of its [forEach]. *)
Record Totals : Type := { accValue : number; accCost : number }.

Definition step (acc : Totals) (holding : Holding) : Totals :=
  {| accValue := (accValue acc + shares holding * currentPrice holding)%js;
     accCost := (accCost acc + shares holding * avgPrice holding)%js |}.

Definition totals (holdings : list Holding) : Totals :=
  fold_left step holdings {| accValue := int 0; accCost := int 0 |}.

Definition totalCost (holdings : list Holding) : number :=
  accCost (totals holdings).

(** [holdings.length] *)
Definition holdings_length (holdings : list Holding) : number :=
  int (Z.of_nat (List.length holdings)).

Definition calculateMetrics (holdings : list Holding) : PortfolioMetrics :=
  let totalValue := accValue (totals holdings) in
  let totalCost := totalCost holdings in
  let totalGainLoss := (totalValue - totalCost)%js in
  let totalGainLossPercent :=
    if gtb totalCost (int 0)
    then (totalGainLoss / totalCost * int 100)%js
    else int 0 in
  let riskScore :=
    Math_min (int 100)
      (Math_max (int 0) (int 50 + totalGainLossPercent * int 2)%js) in
  let diversificationScore :=
    Math_min (int 100) (holdings_length holdings * int 20)%js in
  {| totalValue := totalValue;
     totalGainLoss := totalGainLoss;
     totalGainLossPercent := totalGainLossPercent;
     riskScore := riskScore;
     diversificationScore := diversificationScore |}.

(** The initial component state. *)
Definition initial_holdings : list Holding :=
  [ {| symbol := "AAPL"; shares := int 50; avgPrice := int 150;
       currentPrice := frac 19253 100 |};
    {| symbol := "MSFT"; shares := int 25; avgPrice := int 300;
       currentPrice := frac 41824 100 |};
    {| symbol := "GOOGL"; shares := int 15; avgPrice := int 100;
       currentPrice := frac 13821 100 |} ].

(** [holdings.filter((_, i) => keep(i))]: the callback sees the position. *)
Fixpoint filter_index {A : Type} (keep : number -> bool) (i : nat)
  (l : list A) : list A :=
  match l with
  | [] => []
  | x :: t =>
      if keep (int (Z.of_nat i))
      then x :: filter_index keep (S i) t
      else filter_index keep (S i) t
  end.

(** [removeHolding]: keeps the holdings whose position [i] has [i !== index]
    (strict inequality of numbers: [NaN] differs from everything). *)
Definition removeHolding (holdings : list Holding) (index : number)
  : list Holding :=
  filter_index (fun i => negb (eqb i index)) 0 holdings.

(** The labels of the diversification panel. *)
Definition diversificationLabel (metrics : PortfolioMetrics) : string :=
  if ltb (diversificationScore metrics) (int 40) then "Low"
  else if ltb (diversificationScore metrics) (int 80) then "Medium"
  else "High".

Definition showsImproveDiversification (metrics : PortfolioMetrics) : bool :=
  ltb (diversificationScore metrics) (int 60).

(** The form of the "Add Holding" dialog: three strings. *)
Module NewHolding.
Record t : Type := {
  symbol : string;
  shares : string;
  avgPrice : string
}.
End NewHolding.

(** The component state that [addHolding] reads and sets. *)
Record State : Type := {
  holdings : list Holding;
  newHolding : NewHolding.t;
  showAddForm : bool
}.

Definition mockCurrentPrices : list (string * number) :=
  [ ("AAPL", frac 19253 100); ("MSFT", frac 41824 100);
    ("GOOGL", frac 13821 100); ("TSLA", frac 23845 100);
    ("AMZN", frac 15589 100); ("NVDA", frac 72248 100) ]%string.

(** [table[key]] among the keys of the object literal; [None] is
    [undefined].  The key is always an upper-cased string, and every property
    inherited from [Object.prototype] has a lower-case letter in its name, so
    only the literal's own keys can be hit. *)
Fixpoint lookup (key : string) (table : list (string * number))
  : option number :=
  match table with
  | [] => None
  | (k, v) :: rest => if String.eqb k key then Some v else lookup key rest
  end.

(** [table[key] || fallback] *)
Definition or_else (found : option number) (fallback : number) : number :=
  match found with
  | Some v => if truthy v then v else fallback
  | None => fallback
  end.

(** [!s] of a string: true exactly for the empty string. *)
Definition is_empty (s : string) : bool :=
  match s with EmptyString => true | _ => false end.

Section AddHolding.

(** [parseFloat] and [String.prototype.toUpperCase] are the built-ins. *)
Variable parseFloat : string -> number.
Variable toUpperCase : string -> string.

Definition addHolding (st : State) : State :=
  let form := newHolding st in
  if is_empty (NewHolding.symbol form)
     || is_empty (NewHolding.shares form)
     || is_empty (NewHolding.avgPrice form)
  then st
  else
    let currentPrice :=
      or_else (lookup (toUpperCase (NewHolding.symbol form)) mockCurrentPrices)
              (parseFloat (NewHolding.avgPrice form)) in
    {| holdings :=
         holdings st ++
         [ {| symbol := toUpperCase (NewHolding.symbol form);
              shares := parseFloat (NewHolding.shares form);
              avgPrice := parseFloat (NewHolding.avgPrice form);
              currentPrice := currentPrice |} ];
       newHolding :=
         {| NewHolding.symbol := ""; NewHolding.shares := "";
            NewHolding.avgPrice := "" |};
       showAddForm := false |}.

End AddHolding.

(** Two typed forms over the initial holdings, a listed and an unlisted
    ticker, with [parseFloat] on the strings they contain; the symbols are
    typed in upper case. *)
Definition listed_form_state : State :=
  {| holdings := initial_holdings;
     newHolding := {| NewHolding.symbol := "TSLA"; NewHolding.shares := "10";
                      NewHolding.avgPrice := "200" |};
     showAddForm := true |}.

Definition unlisted_form_state : State :=
  {| holdings := initial_holdings;
     newHolding := {| NewHolding.symbol := "SCOM"; NewHolding.shares := "100";
                      NewHolding.avgPrice := "15" |};
     showAddForm := true |}.

Definition sample_parseFloat (s : string) : number :=
  if String.eqb s "10" then int 10
  else if String.eqb s "200" then int 200
  else if String.eqb s "100" then int 100
  else if String.eqb s "15" then int 15
  else NaN.

Definition sample_toUpperCase (s : string) : string := s.

End PortfolioAnalyzer.

(** ** The specification's vocabulary

    Definitions that follow the wording of the specification, to be compared
    with the functions above. *)

Module Spec.

(** [clamp(x, lo, hi)] *)
Definition clamp (x lo hi : number) : number :=
  if is_NaN x then NaN
  else if gtb lo x then lo
  else if gtb x hi then hi
  else x.



(** [x ≤ y] and [x < y] on numbers ([NaN] is related to nothing). *)
Definition le (x y : number) : Prop := geb y x = true.
Definition lt (x y : number) : Prop := gtb y x = true.

(** The monthly rate [e / 100 / 12] of a finite annual percentage. *)
Definition monthly_rate (e : Qc) : Qc :=
  (e / Q2Qc (inject_Z 100) / Q2Qc (inject_Z 12))%Qc.

End Spec.

(** * The same code over binary64

    Where a property depends on what binary64 does (rounding, overflow to
    [Infinity], underflow to 0, the sign of a zero), the exact numbers above
    say nothing about the program.  This part embeds the functions again, over
    IEEE 754 binary64 as the standard library specifies it ([SpecFloat], with
    53 bits of precision and a maximal exponent of 1024): every [+], [-], [*]
    and [/] of the source is one correctly rounded operation. *)

(** ** Binary64 numbers *)

Module JS64.

Import SpecFloat.

Definition prec : Z := 53.
Definition emax : Z := 1024.

(** A number: a signed zero, a signed infinity, [NaN], or a finite number
    given by its sign, mantissa and exponent, of value ±m×2^e.  The binary64
    numbers are those for which [is_binary64] below holds: a finite one has
    the mantissa and exponent of the format (at most 53 bits, the exponent is
    the least that allows it and is between −1074 and 971).  The operations
    return such numbers when given such numbers. *)
Definition float64 : Type := spec_float.

Definition add : float64 -> float64 -> float64 := SFadd prec emax.
Definition sub : float64 -> float64 -> float64 := SFsub prec emax.
Definition mul : float64 -> float64 -> float64 := SFmul prec emax.
Definition div : float64 -> float64 -> float64 := SFdiv prec emax.

(** Literals: an integer, and a decimal [n/d] written with at most 15
    digits, which is the correctly rounded quotient of two exact integers. *)
Definition of_Z (z : Z) : float64 := binary_normalize prec emax z 0 false.
Definition frac (n : Z) (d : positive) : float64 :=
  div (of_Z n) (of_Z (Zpos d)).

Definition pos_zero : float64 := S754_zero false.
Definition neg_zero : float64 := S754_zero true.
Definition pos_inf : float64 := S754_infinity false.
Definition neg_inf : float64 := S754_infinity true.
Definition nan : float64 := S754_nan.

(** [a > b], [a >= b], [a < b]: false when an operand is [NaN]. *)
Definition gtb (a b : float64) : bool :=
  match SFcompare a b with Some Gt => true | _ => false end.
Definition geb (a b : float64) : bool :=
  match SFcompare a b with Some Gt | Some Eq => true | _ => false end.
Definition ltb (a b : float64) : bool :=
  match SFcompare a b with Some Lt => true | _ => false end.

Definition is_nan (a : float64) : bool :=
  match a with S754_nan => true | _ => false end.
Definition is_zero (a : float64) : bool :=
  match a with S754_zero _ => true | _ => false end.
Definition is_finite (a : float64) : bool :=
  match a with S754_zero _ | S754_finite _ _ _ => true | _ => false end.
Definition is_infinite (a : float64) : bool :=
  match a with S754_infinity _ => true | _ => false end.

(** Being a number of the format: every binary64 value has exactly one
    such representation. *)
Definition is_binary64 (a : float64) : bool := valid_binary prec emax a.

(** The sign bit of a number ([true] is minus); [NaN] has none. *)
Definition sign_of (a : float64) : option bool :=
  match a with
  | S754_zero s | S754_infinity s | S754_finite s _ _ => Some s
  | S754_nan => None
  end.

(** [Math.max(a, b)] and [Math.min(a, b)]: [NaN] if either argument is, and
    [+0] counts as larger than [-0]. *)
Definition Math_max (a b : float64) : float64 :=
  match SFcompare a b with
  | None => S754_nan
  | Some Gt => a
  | Some Lt => b
  | Some Eq => match a with S754_zero true => b | _ => a end
  end.

Definition Math_min (a b : float64) : float64 :=
  match SFcompare a b with
  | None => S754_nan
  | Some Lt => a
  | Some Gt => b
  | Some Eq => match a with S754_zero false => b | _ => a end
  end.

(** [Math.ceil(a)]: a number with a non-negative exponent is an integer
    already; otherwise the mantissa is cut at the binary point and, for a
    positive number that is not an integer, one is added.  A negative number
    above -1 gives [-0]. *)
Definition Math_ceil (a : float64) : float64 :=
  match a with
  | S754_finite s m e =>
      if 0 <=? e then a
      else
        let q := Z.shiftr (Zpos m) (- e) in
        if s then SFopp (of_Z q)
        else of_Z (if Zpos m =? Z.shiftl q (- e) then q else q + 1)
  | _ => a
  end.

(** Whether a finite number is an integer, and an odd one. *)
Definition is_integer (a : float64) : bool :=
  match a with
  | S754_finite _ m e =>
      (0 <=? e) || (Zpos m =? Z.shiftl (Z.shiftr (Zpos m) (- e)) (- e))
  | S754_zero _ => true
  | _ => false
  end.

Definition is_odd_integer (a : float64) : bool :=
  match a with
  | S754_finite _ m e =>
      if 0 <=? e then (e =? 0) && Z.odd (Zpos m)
      else is_integer a && Z.odd (Z.shiftr (Zpos m) (- e))
  | _ => false
  end.

Section Pow.

(** [Math.pow] (Number::exponentiate of ECMAScript).  The special cases are
    fixed by the standard; for a finite non-zero base and a finite non-zero
    exponent the result is "an implementation-approximated value", the
    parameter [pow_approx]. *)
Variable pow_approx : float64 -> float64 -> float64.

Definition Math_pow (base exponent : float64) : float64 :=
  match exponent with
  | S754_nan => S754_nan
  | S754_zero _ => of_Z 1
  | S754_infinity se =>
      match base with
      | S754_nan => S754_nan
      | S754_infinity _ => if se then pos_zero else pos_inf
      | _ =>
          match SFcompare (SFabs base) (of_Z 1) with
          | Some Gt => if se then pos_zero else pos_inf
          | Some Lt => if se then pos_inf else pos_zero
          | _ => S754_nan
          end
      end
  | S754_finite se _ _ =>
      match base with
      | S754_nan => S754_nan
      | S754_infinity false => if se then pos_zero else pos_inf
      | S754_infinity true =>
          if se then (if is_odd_integer exponent then neg_zero else pos_zero)
          else (if is_odd_integer exponent then neg_inf else pos_inf)
      | S754_zero false => if se then pos_inf else pos_zero
      | S754_zero true =>
          if se then (if is_odd_integer exponent then neg_inf else pos_inf)
          else (if is_odd_integer exponent then neg_zero else pos_zero)
      | S754_finite sb _ _ =>
          if sb && negb (is_integer exponent) then S754_nan
          else pow_approx base exponent
      end
  end.

End Pow.

(** The integer a finite number is, when it is one. *)
Definition to_Z (a : float64) : option Z :=
  match a with
  | S754_zero _ => Some 0
  | S754_finite s m e =>
      if is_integer a
      then let n := if 0 <=? e then Z.shiftl (Zpos m) e
                    else Z.shiftr (Zpos m) (- e) in
           Some (if s then - n else n)
      else None
  | _ => None
  end.

(** One implementation of the approximated case: 1 for the base 1, whatever
    the exponent; for another base and a positive integer exponent the
    product base × ... × base, each product rounded, which is the exact power
    whenever no product rounds, as for the small integer powers computed with
    it below. *)
Definition pow_by_products (base exponent : float64) : float64 :=
  match SFcompare base (of_Z 1) with
  | Some Eq => of_Z 1
  | _ =>
      match to_Z exponent with
      | Some (Zpos n) => Pos.iter (mul base) (of_Z 1) n
      | _ => S754_nan
      end
  end.

End JS64.

Declare Scope js64_scope.
Delimit Scope js64_scope with js64.
Infix "+" := JS64.add : js64_scope.
Infix "-" := JS64.sub : js64_scope.
Infix "*" := JS64.mul : js64_scope.
Infix "/" := JS64.div : js64_scope.

(** ** FinancialPlanning.tsx over binary64 *)

Module FinancialPlanning64.

Import JS64.
Import FinancialPlanning.

Module Retirement.
Record Data : Type := {
  currentAge : float64;
  retirementAge : float64;
  currentSavings : float64;
  monthlyContribution : float64;
  expectedReturn : float64;
  currentIncome : float64;
  replaceIncome : float64
}.
Record Result : Type := {
  totalAtRetirement : float64;
  neededCapital : float64;
  surplus : float64;
  monthlyIncomeAtRetirement : float64
}.
End Retirement.

Module Goal.
Record Data : Type := {
  goalName : string;
  targetAmount : float64;
  currentAmount : float64;
  monthlyContribution : float64;
  timeHorizon : float64;
  riskTolerance : RiskTolerance
}.
Record Allocation : Type := {
  stocks : float64;
  bonds : float64;
  cash : float64
}.
Record PlanningResult : Type := {
  monthsToGoal : float64;
  totalContributions : float64;
  expectedReturns : float64;
  recommendedAllocation : Allocation
}.
End Goal.

Definition returnRates (r : RiskTolerance) : float64 :=
  match r with
  | conservative => of_Z 4
  | moderate => of_Z 7
  | aggressive => of_Z 10
  end.

Definition allocations (r : RiskTolerance) : Goal.Allocation :=
  match r with
  | conservative =>
      {| Goal.stocks := of_Z 30; Goal.bonds := of_Z 60; Goal.cash := of_Z 10 |}
  | moderate =>
      {| Goal.stocks := of_Z 60; Goal.bonds := of_Z 30; Goal.cash := of_Z 10 |}
  | aggressive =>
      {| Goal.stocks := of_Z 80; Goal.bonds := of_Z 15; Goal.cash := of_Z 5 |}
  end.

Section Calculators.

Variable pow_approx : float64 -> float64 -> float64.
Let pow := Math_pow pow_approx.

(** The locals of [calculateRetirement], in the order of the source. *)
Definition yearsToRetirement (d : Retirement.Data) : float64 :=
  (Retirement.retirementAge d - Retirement.currentAge d)%js64.

Definition monthsToRetirement (d : Retirement.Data) : float64 :=
  (yearsToRetirement d * of_Z 12)%js64.

Definition retirement_monthlyReturn (d : Retirement.Data) : float64 :=
  (Retirement.expectedReturn d / of_Z 100 / of_Z 12)%js64.

Definition futureCurrentSavings (d : Retirement.Data) : float64 :=
  (Retirement.currentSavings d *
   pow (of_Z 1 + Retirement.expectedReturn d / of_Z 100)
       (yearsToRetirement d))%js64.

(** [(Math.pow(1 + monthlyReturn, monthsToRetirement) - 1) / monthlyReturn] *)
Definition retirement_annuityFactor (d : Retirement.Data) : float64 :=
  let monthlyReturn := retirement_monthlyReturn d in
  ((pow (of_Z 1 + monthlyReturn) (monthsToRetirement d) - of_Z 1)
   / monthlyReturn)%js64.

Definition retirement_futureContributions (d : Retirement.Data) : float64 :=
  (Retirement.monthlyContribution d * retirement_annuityFactor d)%js64.

Definition calculateRetirement (retirementData : Retirement.Data)
  : Retirement.Result :=
  let totalAtRetirement :=
    (futureCurrentSavings retirementData
     + retirement_futureContributions retirementData)%js64 in
  let neededIncome :=
    ((Retirement.currentIncome retirementData
      * Retirement.replaceIncome retirementData) / of_Z 100)%js64 in
  let annualNeed := neededIncome in
  let neededCapital := (annualNeed * of_Z 25)%js64 in
  {| Retirement.totalAtRetirement := totalAtRetirement;
     Retirement.neededCapital := neededCapital;
     Retirement.surplus := (totalAtRetirement - neededCapital)%js64;
     Retirement.monthlyIncomeAtRetirement :=
       (totalAtRetirement * frac 4 100 / of_Z 12)%js64 |}.

(** [remaining] of [calculateGoal]. *)
Definition remaining (d : Goal.Data) : float64 :=
  (Goal.targetAmount d - Goal.currentAmount d)%js64.

Definition goal_futureValue (d : Goal.Data) : float64 :=
  let expectedReturn := returnRates (Goal.riskTolerance d) in
  let monthlyReturn := (expectedReturn / of_Z 100 / of_Z 12)%js64 in
  (Goal.currentAmount d
   * pow (of_Z 1 + expectedReturn / of_Z 100) (Goal.timeHorizon d / of_Z 12)
   + Goal.monthlyContribution d
     * ((pow (of_Z 1 + monthlyReturn) (Goal.timeHorizon d) - of_Z 1)
        / monthlyReturn))%js64.

Definition calculateGoal (goalData : Goal.Data) : Goal.PlanningResult :=
  let remaining := remaining goalData in
  let monthsToGoal :=
    Math_ceil (remaining / Goal.monthlyContribution goalData)%js64 in
  let futureValue := goal_futureValue goalData in
  {| Goal.monthsToGoal := monthsToGoal;
     Goal.totalContributions :=
       (Goal.monthlyContribution goalData * Goal.timeHorizon goalData)%js64;
     Goal.expectedReturns :=
       (futureValue - Goal.currentAmount goalData
        - (Goal.monthlyContribution goalData
           * Goal.timeHorizon goalData))%js64;
     Goal.recommendedAllocation := allocations (Goal.riskTolerance goalData) |}.

End Calculators.

(** The initial state of the two forms, and variations of it. *)
Definition retirementData_with (retirementAge monthlyContribution
                                  expectedReturn : float64)
  : Retirement.Data :=
  {| Retirement.currentAge := of_Z 30;
     Retirement.retirementAge := retirementAge;
     Retirement.currentSavings := of_Z 50000;
     Retirement.monthlyContribution := monthlyContribution;
     Retirement.expectedReturn := expectedReturn;
     Retirement.currentIncome := of_Z 75000;
     Retirement.replaceIncome := of_Z 80 |}.

Definition goalData_with (targetAmount currentAmount monthlyContribution
                            : float64) : Goal.Data :=
  {| Goal.goalName := "House Down Payment";
     Goal.targetAmount := targetAmount;
     Goal.currentAmount := currentAmount;
     Goal.monthlyContribution := monthlyContribution;
     Goal.timeHorizon := of_Z 36;
     Goal.riskTolerance := moderate |}.

(** The doubles 3.000000000000002 and 1.0000000000000007. *)
Definition just_above_3 : float64 :=
  SpecFloat.S754_finite false 6755399441055749 (-51).
Definition just_above_1 : float64 :=
  SpecFloat.S754_finite false 4503599627370499 (-52).

End FinancialPlanning64.

(** ** PortfolioAnalyzer.tsx over binary64 *)

Module PortfolioAnalyzer64.

Import JS64.

Record Holding : Type := {
  symbol : string;
  shares : float64;
  avgPrice : float64;
  currentPrice : float64
}.

Record PortfolioMetrics : Type := {
  totalValue : float64;
  totalGainLoss : float64;
  totalGainLossPercent : float64;
  riskScore : float64;
  diversificationScore : float64
}.

Record Totals : Type := { accValue : float64; accCost : float64 }.

Definition step (acc : Totals) (holding : Holding) : Totals :=
  {| accValue := (accValue acc + shares holding * currentPrice holding)%js64;
     accCost := (accCost acc + shares holding * avgPrice holding)%js64 |}.

Definition totals (holdings : list Holding) : Totals :=
  fold_left step holdings {| accValue := of_Z 0; accCost := of_Z 0 |}.

Definition totalCost (holdings : list Holding) : float64 :=
  accCost (totals holdings).

Definition holdings_length (holdings : list Holding) : float64 :=
  of_Z (Z.of_nat (List.length holdings)).

Definition calculateMetrics (holdings : list Holding) : PortfolioMetrics :=
  let totalValue := accValue (totals holdings) in
  let totalCost := totalCost holdings in
  let totalGainLoss := (totalValue - totalCost)%js64 in
  let totalGainLossPercent :=
    if gtb totalCost (of_Z 0)
    then (totalGainLoss / totalCost * of_Z 100)%js64
    else of_Z 0 in
  let riskScore :=
    Math_min (of_Z 100)
      (Math_max (of_Z 0) (of_Z 50 + totalGainLossPercent * of_Z 2)%js64) in
  let diversificationScore :=
    Math_min (of_Z 100) (holdings_length holdings * of_Z 20)%js64 in
  {| totalValue := totalValue;
     totalGainLoss := totalGainLoss;
     totalGainLossPercent := totalGainLossPercent;
     riskScore := riskScore;
     diversificationScore := diversificationScore |}.

Record AllocatedHolding : Type := {
  holding : Holding;
  value : float64;
  allocation : float64
}.

Definition getPortfolioAllocation (holdings : list Holding)
  : list AllocatedHolding :=
  let totalValue := totalValue (calculateMetrics holdings) in
  map (fun holding =>
         {| holding := holding;
            value := (shares holding * currentPrice holding)%js64;
            allocation :=
              ((shares holding * currentPrice holding) / totalValue
               * of_Z 100)%js64 |})
      holdings.

(** The initial holdings, and one holding of 2^600 shares bought at 2^600. *)
Definition initial_holdings : list Holding :=
  [ {| symbol := "AAPL"; shares := of_Z 50; avgPrice := of_Z 150;
       currentPrice := frac 19253 100 |};
    {| symbol := "MSFT"; shares := of_Z 25; avgPrice := of_Z 300;
       currentPrice := frac 41824 100 |};
    {| symbol := "GOOGL"; shares := of_Z 15; avgPrice := of_Z 100;
       currentPrice := frac 13821 100 |} ].


Definition worthless_holdings : list Holding :=
  [ {| symbol := "AAPL"; shares := of_Z 0; avgPrice := of_Z 150;
       currentPrice := frac 19253 100 |} ].

End PortfolioAnalyzer64.

(** The specification's [clamp] and order, over binary64. *)
Module Spec64.

Import JS64.

(** [clamp(x, lo, hi)]: [lo] for x <= lo, [hi] for x >= hi, x in between;
    [NaN] stays [NaN]. *)
Definition clamp (x lo hi : float64) : float64 :=
  if is_nan x then nan
  else if geb lo x then lo
  else if geb x hi then hi
  else x.

Definition le (x y : float64) : Prop := geb y x = true.
Definition lt (x y : float64) : Prop := ltb x y = true.

(** monthsToGoal as the specification words it:
    ceil(max(targetAmount - currentAmount, 0) / monthlyContribution). *)
Definition monthsToGoal (targetAmount currentAmount monthlyContribution
                           : float64) : float64 :=
  Math_ceil
    (Math_max (targetAmount - currentAmount)%js64 (of_Z 0)
     / monthlyContribution)%js64.

End Spec64.

(** * Properties over exact numbers *)

Import FinancialPlanning.

(** ** Numbers *)

Section NumberFacts.

Lemma Fin_ext (x y : Qc) : (x == y)%Q -> Fin x = Fin y.
Proof. intros H. f_equal. now apply Qc_is_canon. Qed.

Lemma eqb_eq (a b : number) : eqb a b = true -> a = b.
Proof.
  destruct a, b; simpl; try discriminate; try reflexivity.
  intros H. apply Fin_ext. now apply Qeq_bool_iff.
Qed.

Lemma add_0_r (a : number) : (a + int 0)%js = a.
Proof.
  destruct a; simpl; try reflexivity.
  f_equal. apply Qcplus_0_r.
Qed.



Lemma add_NaN_r (a : number) : (a + NaN)%js = NaN.
Proof. now destruct a. Qed.

Lemma mul_NaN_r (a : number) : (a * NaN)%js = NaN.
Proof. now destruct a. Qed.

Lemma sub_NaN_l (a : number) : (NaN - a)%js = NaN.
Proof. now destruct a. Qed.

End NumberFacts.

(** Closes a goal [a = b] between two closed numbers by evaluation. *)
Ltac by_evaluation := apply eqb_eq; vm_compute; reflexivity.

(** ** The allocation table *)

(** C7: for every goal input the [recommendedAllocation] that [calculateGoal]
    returns is the fixed table entry of its risk tier (conservative 30/60/10,
    moderate 60/30/10, aggressive 80/15/5, as stocks/bonds/cash), and in each
    tier stocks + bonds + cash is exactly 100. *)
Theorem C7_recommendedAllocation_table :
  forall (pow_approx : Qc -> Qc -> number) (g : Goal.Data),
    let a := Goal.recommendedAllocation (calculateGoal pow_approx g) in
    (Goal.stocks a, Goal.bonds a, Goal.cash a) =
      match Goal.riskTolerance g with
      | conservative => (int 30, int 60, int 10)
      | moderate => (int 60, int 30, int 10)
      | aggressive => (int 80, int 15, int 5)
      end
    /\ (Goal.stocks a + Goal.bonds a + Goal.cash a)%js = int 100.
Proof.
  intros pa g a; subst a.
  unfold calculateGoal; cbn [Goal.recommendedAllocation].
  destruct (Goal.riskTolerance g); split; try reflexivity; by_evaluation.
Qed.

(** ** The rate of the goal projector *)

Lemma div_by_positive (m : number) (q : Qc) :
  m = Fin q -> (Qc0 < q)%Qc -> forall x : Qc, (Fin x / m)%js = Fin (x / q)%Qc.
Proof.
  intros -> Hq x. unfold div, is_zero.
  apply Qcgt_alt in Hq. now rewrite Hq.
Qed.

(** C9: in [calculateGoal] the risk tier is mapped to an annual return of 4, 7
    or 10 percent, so the [monthlyReturn] that divides the annuity term is a
    strictly positive finite number for every goal input, and dividing a
    finite numerator by it is an ordinary rational division. *)
Theorem C9_goal_annuity_denominator_positive :
  forall (pow_approx : Qc -> Qc -> number) (g : Goal.Data),
    let r := Goal.riskTolerance g in
    let m := goal_monthlyReturn r in
    (returnRates r = int 4 \/ returnRates r = int 7 \/ returnRates r = int 10)
    /\ goal_futureValue pow_approx g =
         (Goal.currentAmount g
          * Math_pow pow_approx (int 1 + returnRates r / int 100)
                     (Goal.timeHorizon g / int 12)
          + Goal.monthlyContribution g
            * ((Math_pow pow_approx (int 1 + m) (Goal.timeHorizon g) - int 1)
               / m))%js
    /\ exists q : Qc,
         m = Fin q /\ (Qc0 < q)%Qc /\ is_zero q = false
         /\ forall x : Qc, (Fin x / m)%js = Fin (x / q)%Qc.
Proof.
  intros pa g r m.
  split; [ subst r; destruct (Goal.riskTolerance g); auto | ].
  split; [ reflexivity | ].
  assert (E : exists q : Qc, m = Fin q /\ (Qc0 < q)%Qc).
  { subst m r. destruct (Goal.riskTolerance g).
    - exists (Q2Qc (1 # 300)). split; [ by_evaluation | reflexivity ].
    - exists (Q2Qc (7 # 1200)). split; [ by_evaluation | reflexivity ].
    - exists (Q2Qc (1 # 120)). split; [ by_evaluation | reflexivity ]. }
  destruct E as (q & Hm & Hq).
  exists q. repeat split; auto.
  - unfold is_zero. apply Qcgt_alt in Hq. now rewrite Hq.
  - now apply div_by_positive.
Qed.

(** ** The empty portfolio *)

(** C10: on the empty holdings list [calculateMetrics] returns a fully defined
    record: totalValue 0, totalGainLoss 0, totalGainLossPercent 0 (the guard
    [totalCost > 0] fails, so nothing is divided), riskScore 50 and
    diversificationScore 0; no field is [NaN]. *)
Theorem C10_empty_portfolio_metrics :
  let m := PortfolioAnalyzer.calculateMetrics [] in
  PortfolioAnalyzer.totalValue m = int 0
  /\ PortfolioAnalyzer.totalGainLoss m = int 0
  /\ PortfolioAnalyzer.totalGainLossPercent m = int 0
  /\ PortfolioAnalyzer.riskScore m = int 50
  /\ PortfolioAnalyzer.diversificationScore m = int 0
  /\ gtb (PortfolioAnalyzer.totalCost []) (int 0) = false.
Proof.
  cbv zeta. repeat split; try by_evaluation. 
Qed.

(** ** Portfolio totals *)

Section PortfolioTotals.

Import PortfolioAnalyzer.



End PortfolioTotals.



(** ** Order on numbers *)

Section Ordering.

Lemma gtb_Fin_true (x y : Qc) : gtb (Fin x) (Fin y) = true <-> (y < x)%Q.
Proof.
  unfold gtb, Qccompare. rewrite Qgt_alt.
  destruct (x ?= y)%Q; split; congruence.
Qed.

Lemma gtb_Fin_false (x y : Qc) : gtb (Fin x) (Fin y) = false <-> (x <= y)%Q.
Proof.
  unfold gtb, Qccompare. rewrite Qle_alt.
  destruct (x ?= y)%Q; split; congruence.
Qed.

Lemma is_zero_true (c : Qc) : is_zero c = true -> c = Qc0.
Proof.
  unfold is_zero. intros H. apply Qceq_alt.
  now destruct (c ?= Qc0)%Qc.
Qed.

Lemma this_int (z : Z) : (this (Q2Qc (inject_Z z)) == inject_Z z)%Q.
Proof. unfold Q2Qc. cbn [this]. apply Qred_correct. Qed.

Lemma this_add (x y : Qc) : (this (x + y)%Qc == this x + this y)%Q.
Proof. unfold Qcplus, Q2Qc. cbn [this]. now rewrite Qred_correct. Qed.

Lemma gtb_int (a b : Z) : gtb (int a) (int b) = (b <? a)%Z.
Proof.
  destruct (b <? a)%Z eqn:E.
  - apply gtb_Fin_true. rewrite !this_int, <- Zlt_Qlt. now apply Z.ltb_lt.
  - apply gtb_Fin_false. rewrite !this_int, <- Zle_Qle. now apply Z.ltb_ge.
Qed.

Lemma mul_int (a b : Z) : (int a * int b)%js = int (a * b).
Proof.
  apply Fin_ext. unfold Qcmult, Q2Qc. cbn [this]. rewrite !Qred_correct.
  now rewrite inject_Z_mult.
Qed.

End Ordering.

Section DiversificationScore.

Import PortfolioAnalyzer.

Lemma diversification_as_int (hs : list Holding) :
  diversificationScore (calculateMetrics hs)
  = if (Z.of_nat (List.length hs) * 20 <? 100)%Z
    then int (Z.of_nat (List.length hs) * 20) else int 100.
Proof.
  unfold calculateMetrics. cbn [diversificationScore].
  unfold holdings_length. rewrite mul_int.
  unfold Math_min. fold (int (Z.of_nat (List.length hs) * 20)).
  change (match int (Z.of_nat (List.length hs) * 20) with
          | NaN => NaN
          | _ => if gtb (int 100) (int (Z.of_nat (List.length hs) * 20))
                 then int (Z.of_nat (List.length hs) * 20) else int 100
          end)
    with (if gtb (int 100) (int (Z.of_nat (List.length hs) * 20))
          then int (Z.of_nat (List.length hs) * 20) else int 100).
  now rewrite gtb_int.
Qed.

End DiversificationScore.

(** ** Compound interest *)

Section Scaling.

(** Multiplying by a positive constant keeps the sign. *)
Variable k : Qc.
Hypothesis k_pos : (Qc0 < k)%Qc.




End Scaling.


(** ** Integer exponents *)

Section IntegerPowers.

Variable pow_approx : Qc -> Qc -> number.

Lemma this_int_eq (z : Z) : this (Q2Qc (inject_Z z)) = inject_Z z.
Proof.
  unfold Q2Qc. cbn [this]. apply Qred_identity.
  simpl. apply Z.gcd_1_r.
Qed.

Lemma sub_int (b a : Z) : (int b - int a)%js = int (b - a).
Proof.
  apply Fin_ext. unfold Qcplus, Qcopp, Q2Qc. cbn [this].
  rewrite !Qred_correct. unfold Z.sub.
  now rewrite inject_Z_plus, inject_Z_opp.
Qed.

(** Base 1 and any integer exponent. *)
Lemma pow_one_int (n : Z) :
  Math_pow pow_approx (int 1) (int n) = int 1.
Proof.
  unfold Math_pow, int.
  destruct (is_zero (Q2Qc (inject_Z n))); [ reflexivity | ].
  replace (is_zero (Q2Qc (inject_Z 1))) with false by reflexivity.
  unfold is_integer. rewrite !this_int_eq. cbn [Qden inject_Z Pos.eqb Qnum].
  apply Fin_ext. unfold Q2Qc. cbn [this]. rewrite !Qred_correct.
  apply Qpower_1.
Qed.

End IntegerPowers.

(** ** Retirement at a zero rate *)

(** C1, as the code has it: [calculateRetirement] has no special case for a
    zero rate.  With integer ages and expectedReturn = 0 it evaluates the
    geometric formula at monthlyReturn = 0: nothing is raised, the annuity
    term is (1 − 1)/0 = [NaN], and so totalAtRetirement, surplus and
    monthlyIncomeAtRetirement are [NaN], whatever the savings and the
    contribution are. *)
Theorem C1_zero_rate_yields_NaN :
  forall (pow_approx : Qc -> Qc -> number) (d : Retirement.Data) (a b : Z),
    Retirement.currentAge d = int a ->
    Retirement.retirementAge d = int b ->
    Retirement.expectedReturn d = int 0 ->
    let r := calculateRetirement pow_approx d in
    retirement_monthlyReturn d = int 0
    /\ retirement_futureContributions pow_approx d = NaN
    /\ Retirement.totalAtRetirement r = NaN
    /\ Retirement.surplus r = NaN
    /\ Retirement.monthlyIncomeAtRetirement r = NaN.
Proof.
  intros pa d a b Ha Hb He r.
  assert (Hm : retirement_monthlyReturn d = int 0).
  { unfold retirement_monthlyReturn. rewrite He. by_evaluation. }
  assert (Hf : retirement_futureContributions pa d = NaN).
  { unfold retirement_futureContributions. rewrite Hm.
    unfold monthsToRetirement, yearsToRetirement.
    rewrite Ha, Hb, sub_int, mul_int.
    replace (int 1 + int 0)%js with (int 1) by (symmetry; by_evaluation).
    rewrite pow_one_int.
    replace ((int 1 - int 1) / int 0)%js with NaN by reflexivity.
    apply mul_NaN_r. }
  assert (Ht : Retirement.totalAtRetirement r = NaN).
  { subst r. unfold calculateRetirement.
    cbn [Retirement.totalAtRetirement]. rewrite Hf. apply add_NaN_r. }
  repeat split; auto.
  - subst r. unfold calculateRetirement in *.
    cbn [Retirement.totalAtRetirement Retirement.surplus] in *.
    rewrite Ht. apply sub_NaN_l.
  - subst r. unfold calculateRetirement in *.
    cbn [Retirement.totalAtRetirement
         Retirement.monthlyIncomeAtRetirement] in *.
    rewrite Ht. reflexivity.
Qed.

(** C1 at the initial state with the rate set to 0. *)
Lemma C1_zero_rate_yields_NaN_witness :
  Retirement.totalAtRetirement
    (calculateRetirement no_approx zero_rate_retirementData) = NaN.
Proof.
  exact (proj1 (proj2 (proj2
    (C1_zero_rate_yields_NaN no_approx zero_rate_retirementData 30 65
       eq_refl eq_refl eq_refl)))).
Defined.

(** With the rate set to 0 the initial state gives totalAtRetirement = [NaN],
    not currentSavings + monthlyContribution × monthsToRetirement = 470000. *)
Lemma C1_zero_rate_counterexample :
  let d := zero_rate_retirementData in
  let r := calculateRetirement no_approx d in
  Retirement.expectedReturn d = int 0
  /\ Spec.lt (Retirement.currentAge d) (Retirement.retirementAge d)
  /\ (Retirement.currentSavings d
      + Retirement.monthlyContribution d * monthsToRetirement d)%js
     = int 470000
  /\ is_NaN (Retirement.totalAtRetirement r) = true
  /\ Retirement.totalAtRetirement r <>
       (Retirement.currentSavings d
        + Retirement.monthlyContribution d * monthsToRetirement d)%js.
Proof.
  cbv zeta. repeat split; try by_evaluation.
  vm_compute. discriminate.
Qed.

(** * Properties over binary64 *)

(** ** Binary64: signs and NaN *)

Section RoundingSigns.

Import SpecFloat JS64.

Lemma shr_1_nonneg (mrs : shr_record) :
  0 <= shr_m mrs -> 0 <= shr_m (shr_1 mrs).
Proof.
  destruct mrs as [m r s]. destruct m as [|[p|p|]|p]; simpl; lia.
Qed.

Lemma iter_pos_invariant {A : Type} (P : A -> Prop) (f : A -> A) :
  (forall x, P x -> P (f x)) ->
  forall (n : positive) (x : A), P x -> P (iter_pos f n x).
Proof.
  intros Hf. induction n as [n IH|n IH|]; intros x Hx; simpl; auto.
Qed.

Lemma shr_nonneg (mrs : shr_record) (e n : Z) :
  0 <= shr_m mrs -> 0 <= shr_m (fst (shr mrs e n)).
Proof.
  intros H. destruct n as [|p|p]; simpl; trivial.
  apply (iter_pos_invariant (fun x => 0 <= shr_m x)); trivial.
  exact shr_1_nonneg.
Qed.

Lemma shr_m_of_loc (m : Z) (l : location) :
  shr_m (shr_record_of_loc m l) = m.
Proof. now destruct l as [|[| |]]. Qed.

Lemma shr_fexp_nonneg (m e : Z) (l : location) :
  0 <= m -> 0 <= shr_m (fst (shr_fexp prec emax m e l)).
Proof.
  intros H. unfold shr_fexp. apply shr_nonneg. now rewrite shr_m_of_loc.
Qed.

Lemma round_nearest_even_nonneg (m : Z) (l : location) :
  0 <= m -> 0 <= round_nearest_even m l.
Proof.
  intros H. destruct l as [|[| |]]; simpl; try lia.
  destruct (Z.even m); lia.
Qed.

(** Rounding a non-negative mantissa never gives [NaN] and keeps the sign it
    is given: the result is a zero, a finite number or an infinity of that
    sign. *)
Lemma binary_round_aux_sign (s : bool) (m e : Z) (l : location) :
  0 <= m -> sign_of (binary_round_aux prec emax s m e l) = Some s.
Proof.
  intros H. unfold binary_round_aux.
  pose proof (shr_fexp_nonneg m e l H) as H1.
  destruct (shr_fexp prec emax m e l) as [mrs' e']. cbn [fst] in H1.
  pose proof (shr_fexp_nonneg
                (round_nearest_even (shr_m mrs') (loc_of_shr_record mrs'))
                e' loc_Exact
                (round_nearest_even_nonneg _ _ H1)) as H2.
  destruct (shr_fexp prec emax _ e' loc_Exact) as [mrs'' e'']. cbn [fst] in H2.
  destruct (shr_m mrs'') as [|p|p]; try reflexivity.
  - now destruct (e'' <=? emax - prec).
  - lia.
Qed.

Lemma binary_round_sign (s : bool) (m : positive) (e : Z) :
  sign_of (binary_round prec emax s m e) = Some s.
Proof.
  unfold binary_round.
  destruct (shl_align m e _) as [mz ez].
  apply binary_round_aux_sign. lia.
Qed.

Lemma binary_normalize_sign (m e : Z) :
  sign_of (binary_normalize prec emax m e false) = Some (m <? 0).
Proof.
  destruct m as [|p|p]; simpl; trivial; apply binary_round_sign.
Qed.

Lemma of_Z_sign (z : Z) : sign_of (of_Z z) = Some (z <? 0).
Proof. apply binary_normalize_sign. Qed.

Lemma sign_not_nan (a : float64) (s : bool) :
  sign_of a = Some s -> is_nan a = false.
Proof. destruct a; simpl; congruence. Qed.

Lemma not_nan_sign (a : float64) :
  is_nan a = false -> exists s, sign_of a = Some s.
Proof. destruct a; simpl; try congruence; eauto. Qed.

(** A product has the product of the signs of its factors, unless it is
    0 × Infinity; it may be an infinity (overflow) or a zero (underflow). *)
Lemma mul_sign (a b : float64) (sa sb : bool) :
  sign_of a = Some sa -> sign_of b = Some sb ->
  is_zero a && is_infinite b = false ->
  is_infinite a && is_zero b = false ->
  sign_of (mul a b) = Some (xorb sa sb).
Proof.
  destruct a as [s1|s1| |s1 m1 e1], b as [s2|s2| |s2 m2 e2];
    simpl; try discriminate; intros A B _ _;
    injection A as <-; injection B as <-; trivial.
  apply binary_round_aux_sign. lia.
Qed.


Lemma mul_nan_r (a b : float64) : is_nan b = true -> is_nan (mul a b) = true.
Proof. destruct b; try discriminate. now destruct a. Qed.


Lemma div_core_nonneg (m1 m2 : positive) (e1 e2 : Z) :
  0 <= fst (fst (SFdiv_core_binary prec emax (Zpos m1) e1 (Zpos m2) e2)).
Proof.
  unfold SFdiv_core_binary.
  set (s := _ - _ - _).
  set (m' := match s with Z0 => _ | Zpos _ => _ | Zneg _ => _ end).
  assert (Hm : 0 <= m').
  { subst m'. destruct s; try lia. apply Z.shiftl_nonneg. lia. }
  pose proof (Z_div_mod m' (Zpos m2) eq_refl) as D.
  destruct (Z.div_eucl m' (Zpos m2)) as [q r]. cbn [fst].
  destruct D as [D1 D2]. nia.
Qed.

(** A quotient by a finite number other than 0 has the product of the
    signs and is never [NaN]. *)
Lemma div_sign (a b : float64) (sa sb : bool) :
  is_finite b = true -> is_zero b = false ->
  sign_of a = Some sa -> sign_of b = Some sb ->
  sign_of (div a b) = Some (xorb sa sb).
Proof.
  destruct a as [s1|s1| |s1 m1 e1], b as [s2|s2| |s2 m2 e2];
    simpl; try discriminate; intros _ _ A B;
    injection A as <-; injection B as <-; trivial.
  pose proof (div_core_nonneg m1 m2 e1 e2) as H.
  destruct (SFdiv_core_binary _ _ _ _ _ _) as [[mz ez] lz]. cbn [fst] in H.
  now apply binary_round_aux_sign.
Qed.

(** A quotient by a zero: [NaN] from a zero or [NaN], otherwise the infinity
    with the product of the signs. *)
Lemma div_by_zero (a : float64) (sz : bool) :
  div a (S754_zero sz)
  = match a with
    | S754_zero _ | S754_nan => S754_nan
    | S754_infinity s | S754_finite s _ _ => S754_infinity (xorb s sz)
    end.
Proof. now destruct a. Qed.

Lemma sub_finite_not_nan (a b : float64) :
  is_finite a = true -> is_finite b = true -> is_nan (sub a b) = false.
Proof.
  destruct a as [s1| | |s1 m1 e1], b as [s2| | |s2 m2 e2];
    simpl; try discriminate; intros _ _; trivial.
  - now destruct s1, s2.
  - eapply sign_not_nan. apply binary_normalize_sign.
Qed.

(** [Math.ceil] keeps the sign (a negative number above -1 goes to -0) and
    gives [NaN] only for [NaN]. *)
Lemma Math_ceil_sign (a : float64) : sign_of (Math_ceil a) = sign_of a.
Proof.
  destruct a as [s| | |s m e]; simpl; trivial.
  destruct (0 <=? e); trivial.
  assert (Hq : 0 <= Z.shiftr (Zpos m) (- e)) by (apply Z.shiftr_nonneg; lia).
  destruct s.
  - pose proof (of_Z_sign (Z.shiftr (Zpos m) (- e))) as S.
    destruct (Z.ltb_spec (Z.shiftr (Zpos m) (- e)) 0); try lia.
    destruct (of_Z _) as [s| | |s m' e']; simpl in *; try discriminate;
      injection S as ->; reflexivity.
  - rewrite of_Z_sign. f_equal.
    match goal with |- context [if ?c then _ else _] => destruct c end;
      apply Z.ltb_ge; lia.
Qed.


Lemma add_nan_r (a b : float64) : is_nan b = true -> is_nan (add a b) = true.
Proof. destruct b; try discriminate. now destruct a. Qed.

End RoundingSigns.

(** ** Binary64: comparisons *)

Section Comparisons.

Import SpecFloat JS64.

Lemma SFcompare_antisym (a b : float64) :
  SFcompare b a = option_map CompOpp (SFcompare a b).
Proof.
  destruct a as [s1|s1| |s1 m1 e1], b as [s2|s2| |s2 m2 e2];
    simpl; trivial;
    try (now destruct s1); try (now destruct s2);
    try (now destruct s1, s2).
  pose proof (Pos.compare_cont_antisym m1 m2 Eq) as P. simpl in P.
  destruct s1, s2; simpl; trivial;
    rewrite (Z.compare_antisym e1 e2);
    destruct (e1 ?= e2); simpl; trivial; now rewrite P.
Qed.

Lemma SFcompare_refl (a : float64) :
  is_nan a = false -> SFcompare a a = Some Eq.
Proof.
  destruct a as [s|s| |s m e]; simpl; try discriminate; intros _;
    try (now destruct s).
  destruct s; rewrite Z.compare_refl, Pos.compare_cont_refl; reflexivity.
Qed.

Lemma geb_refl (a : float64) : is_nan a = false -> geb a a = true.
Proof. intros H. unfold geb. now rewrite SFcompare_refl. Qed.



(** The sign decides the comparison with 0. *)
Lemma sign_false_ge_0 (a : float64) :
  sign_of a = Some false -> geb a (of_Z 0) = true.
Proof.
  destruct a as [s|s| |s m e]; simpl; try discriminate;
    intros H; injection H as ->; reflexivity.
Qed.

Lemma sign_true_le_0 (a : float64) :
  sign_of a = Some true -> geb (of_Z 0) a = true.
Proof.
  destruct a as [s|s| |s m e]; simpl; try discriminate;
    intros H; injection H as ->; reflexivity.
Qed.

Lemma zero_ge_0 (a : float64) : is_zero a = true -> geb a (of_Z 0) = true.
Proof. destruct a; simpl; try discriminate; reflexivity. Qed.

Lemma ge_0_cases (a : float64) :
  geb a (of_Z 0) = true -> is_zero a = true \/ sign_of a = Some false.
Proof.
  destruct a as [s|s| |s m e]; simpl; try discriminate; auto;
    destruct s; try discriminate; auto.
Qed.

Lemma lt_0_sign (a : float64) :
  ltb a (of_Z 0) = true -> is_zero a = false /\ sign_of a = Some true.
Proof.
  destruct a as [s|s| |s m e]; simpl; try discriminate; auto;
    destruct s; try discriminate; auto.
Qed.

Lemma gt_0_sign (a : float64) :
  gtb a (of_Z 0) = true -> is_zero a = false /\ sign_of a = Some false.
Proof.
  destruct a as [s|s| |s m e]; simpl; try discriminate; auto;
    destruct s; try discriminate; auto.
Qed.

Lemma le_0_cases (a : float64) :
  geb (of_Z 0) a = true -> is_zero a = true \/ sign_of a = Some true.
Proof.
  destruct a as [s|s| |s m e]; simpl; try discriminate; auto;
    destruct s; try discriminate; auto.
Qed.

(** A product of two numbers that are ≥ 0 is ≥ 0, unless it is
    0 × Infinity. *)
Lemma mul_nonneg (a b : float64) :
  geb a (of_Z 0) = true -> geb b (of_Z 0) = true ->
  is_zero a && is_infinite b = false ->
  is_infinite a && is_zero b = false ->
  geb (mul a b) (of_Z 0) = true.
Proof.
  intros Ha Hb Z1 Z2.
  destruct (ge_0_cases a Ha) as [A | A], (ge_0_cases b Hb) as [B | B].
  - destruct a, b; try discriminate; reflexivity.
  - destruct a, b; try discriminate; reflexivity.
  - destruct b, a; try discriminate; reflexivity.
  - apply sign_false_ge_0.
    change false with (xorb false false). now apply mul_sign.
Qed.

End Comparisons.

(** ** Binary64: clamping with Math.min and Math.max *)

Section Clamp64.

Import SpecFloat JS64.

Variable mh : positive.
Variable eh : Z.
Let lo : float64 := S754_zero false.
Let hi : float64 := S754_finite false mh eh.




End Clamp64.

(** ** Binary64: rounding to the format *)

Section Rounding64.

Import SpecFloat JS64.

Lemma fexp_spec (x : Z) : fexp prec emax x = Z.max (x - 53) (-1074).
Proof. reflexivity. Qed.

Lemma digits2_pos_size (p : positive) : digits2_pos p = Pos.size p.
Proof. induction p; simpl; congruence. Qed.

Lemma digits2_log2 (p : positive) :
  Zpos (digits2_pos p) = Z.log2 (Zpos p) + 1.
Proof.
  rewrite digits2_pos_size. destruct p; simpl; lia.
Qed.

(** A positive number of [d] binary digits lies in [2^(d-1), 2^d). *)
Lemma digits2_bounds (p : positive) :
  2 ^ (Zpos (digits2_pos p) - 1) <= Zpos p < 2 ^ Zpos (digits2_pos p).
Proof.
  rewrite digits2_log2.
  replace (Z.log2 (Zpos p) + 1 - 1) with (Z.log2 (Zpos p)) by lia.
  apply Z.log2_spec. lia.
Qed.

Lemma Zdigits2_bounds (m : Z) :
  0 < m -> 0 < Zdigits2 m /\ 2 ^ (Zdigits2 m - 1) <= m < 2 ^ Zdigits2 m.
Proof.
  destruct m as [|p|p]; try lia. intros _. simpl.
  split; [ lia | apply digits2_bounds ].
Qed.

(** More digits, larger number. *)
Lemma pow2_lt_digits (m k : Z) :
  0 < m -> 0 <= k -> m < 2 ^ k -> Zdigits2 m <= k.
Proof.
  intros Hm Hk H. destruct (Zdigits2_bounds m Hm) as [Hd [Hl _]].
  destruct (Z_le_gt_dec (Zdigits2 m) k) as [|G]; trivial.
  assert (2 ^ k <= 2 ^ (Zdigits2 m - 1))
    by (apply Z.pow_le_mono_r; lia).
  lia.
Qed.


Lemma Zdigits2_monotone (m n : Z) :
  0 < m -> m <= n -> Zdigits2 m <= Zdigits2 n.
Proof.
  intros Hm Hmn.
  destruct (Zdigits2_bounds n ltac:(lia)) as [Hd [_ Hu]].
  apply pow2_lt_digits; lia.
Qed.

(** One step of [shr] halves a non-negative mantissa, and keeps an exact
    record exact when the mantissa is even. *)
Lemma shr_1_div2 (mrs : shr_record) :
  0 <= shr_m mrs -> shr_m (shr_1 mrs) = shr_m mrs / 2.
Proof.
  destruct mrs as [m r s]. destruct m as [|[p|p|]|p]; simpl; intros H;
    try lia; try reflexivity.
  - rewrite Pos2Z.inj_xI. apply (Z.div_unique _ _ _ 1); lia.
  - rewrite Pos2Z.inj_xO. apply (Z.div_unique _ _ _ 0); lia.
Qed.

Lemma shr_1_exact (mrs : shr_record) :
  0 <= shr_m mrs -> (shr_r mrs = false /\ shr_s mrs = false) -> shr_m mrs mod 2 = 0 ->
  (shr_r (shr_1 mrs) = false /\ shr_s (shr_1 mrs) = false).
Proof.
  destruct mrs as [m r s]. simpl.
  intros H [-> ->] E.
  destruct m as [|[p|p|]|p]; simpl; auto; try lia.
  - rewrite Pos2Z.inj_xI in E.
    rewrite Z.add_comm, Z.mul_comm, Z.mod_add in E by lia.
    discriminate E.
  - discriminate E.
Qed.

Lemma iter_shr_1 (p : positive) :
  forall mrs : shr_record,
    0 <= shr_m mrs ->
    shr_m (iter_pos shr_1 p mrs) = shr_m mrs / 2 ^ Zpos p
    /\ ((shr_r mrs = false /\ shr_s mrs = false) -> shr_m mrs mod 2 ^ Zpos p = 0 ->
        (shr_r (iter_pos shr_1 p mrs) = false /\ shr_s (iter_pos shr_1 p mrs) = false)).
Proof.
  assert (Half : forall (q : positive) (mrs : shr_record),
    (forall r : shr_record, 0 <= shr_m r ->
       shr_m (iter_pos shr_1 q r) = shr_m r / 2 ^ Zpos q
       /\ ((shr_r r = false /\ shr_s r = false) -> shr_m r mod 2 ^ Zpos q = 0 ->
           (shr_r (iter_pos shr_1 q r) = false /\ shr_s (iter_pos shr_1 q r) = false))) ->
    0 <= shr_m mrs ->
    shr_m (iter_pos shr_1 q (iter_pos shr_1 q mrs))
    = shr_m mrs / 2 ^ Zpos (q~0)
    /\ ((shr_r mrs = false /\ shr_s mrs = false) -> shr_m mrs mod 2 ^ Zpos (q~0) = 0 ->
        (shr_r (iter_pos shr_1 q (iter_pos shr_1 q mrs)) = false /\ shr_s (iter_pos shr_1 q (iter_pos shr_1 q mrs)) = false))).
  { intros q mrs IH H.
    destruct (IH mrs H) as [E1 X1].
    assert (H1 : 0 <= shr_m (iter_pos shr_1 q mrs)).
    { rewrite E1. apply Z.div_pos; [ lia | ]. apply Z.pow_pos_nonneg; lia. }
    destruct (IH _ H1) as [E2 X2].
    assert (P : 2 ^ Zpos (q~0) = 2 ^ Zpos q * 2 ^ Zpos q).
    { rewrite <- Z.pow_add_r by lia. f_equal. lia. }
    assert (Q : 0 < 2 ^ Zpos q) by (apply Z.pow_pos_nonneg; lia).
    split.
    - rewrite E2, E1, P, Z.div_div by lia. reflexivity.
    - intros X M. rewrite P in M.
      apply Z.mod_divide in M; [ | lia ]. destruct M as [c M].
      apply X2.
      + apply X1; trivial. rewrite M.
        replace (c * (2 ^ Zpos q * 2 ^ Zpos q))
          with (c * 2 ^ Zpos q * 2 ^ Zpos q) by ring.
        apply Z.mod_mul. lia.
      + rewrite E1, M.
        replace (c * (2 ^ Zpos q * 2 ^ Zpos q))
          with (c * 2 ^ Zpos q * 2 ^ Zpos q) by ring.
        rewrite Z.div_mul by lia. apply Z.mod_mul. lia. }
  induction p as [q IH|q IH|]; intros mrs H.
  - (* 2q + 1 *)
    cbn [iter_pos].
    assert (H1 : 0 <= shr_m (shr_1 mrs)) by now apply shr_1_nonneg.
    destruct (Half q (shr_1 mrs) IH H1) as [E X].
    assert (P : 2 ^ Zpos (q~1) = 2 * 2 ^ Zpos (q~0)).
    { replace (Zpos (q~1)) with (1 + Zpos (q~0)) by lia.
      rewrite Z.pow_add_r, Z.pow_1_r by lia. reflexivity. }
    assert (Q : 0 < 2 ^ Zpos (q~0)) by (apply Z.pow_pos_nonneg; lia).
    split.
    + rewrite E, shr_1_div2, P, Z.div_div by lia. reflexivity.
    + intros Xm M. rewrite P in M.
      apply Z.mod_divide in M; [ | lia ]. destruct M as [c M].
      apply X.
      * apply shr_1_exact; trivial. rewrite M.
        replace (c * (2 * 2 ^ Zpos (q~0))) with (c * 2 ^ Zpos (q~0) * 2)
          by ring.
        apply Z.mod_mul. lia.
      * rewrite shr_1_div2, M by trivial.
        replace (c * (2 * 2 ^ Zpos (q~0))) with (c * 2 ^ Zpos (q~0) * 2)
          by ring.
        rewrite Z.div_mul by lia. apply Z.mod_mul. lia.
  - cbn [iter_pos]. now apply Half.
  - cbn [iter_pos]. split.
    + now rewrite shr_1_div2.
    + intros X M. now apply shr_1_exact.
Qed.

(** [shr_fexp] on an exact mantissa: it drops the [k] low bits that do not
    fit the format, where [k] is 0 when all fit. *)
Lemma shr_fexp_exact (m e : Z) :
  0 <= m ->
  let k := Z.max 0 (fexp prec emax (Zdigits2 m + e) - e) in
  shr_m (fst (shr_fexp prec emax m e loc_Exact)) = m / 2 ^ k
  /\ snd (shr_fexp prec emax m e loc_Exact) = e + k
  /\ (m mod 2 ^ k = 0 ->
      loc_of_shr_record (fst (shr_fexp prec emax m e loc_Exact)) = loc_Exact).
Proof.
  intros Hm k. unfold shr_fexp, shr. subst k.
  destruct (fexp prec emax (Zdigits2 m + e) - e) as [|p|p] eqn:E.
  - cbn [fst snd shr_record_of_loc shr_m Z.max Z.compare].
    rewrite Z.pow_0_r, Z.div_1_r, Z.add_0_r. auto.
  - cbn [fst snd].
    destruct (iter_shr_1 p (shr_record_of_loc m loc_Exact) Hm) as [D X].
    cbn [shr_record_of_loc shr_m] in D, X.
    replace (Z.max 0 (Zpos p)) with (Zpos p) by lia.
    split; [ exact D | ]. split; [ reflexivity | ].
    intros M. destruct (X (conj eq_refl eq_refl) M) as [R S].
    destruct (iter_pos shr_1 p _) as [m' r' s']. simpl in R, S.
    now subst.
  - cbn [fst snd shr_record_of_loc shr_m].
    replace (Z.max 0 (Zneg p)) with 0 by lia.
    rewrite Z.pow_0_r, Z.div_1_r, Z.add_0_r. auto.
Qed.

Lemma round_nearest_even_bounds (m : Z) (l : location) :
  m <= round_nearest_even m l <= m + 1
  /\ (l = loc_Exact -> round_nearest_even m l = m).
Proof.
  destruct l as [|[| |]]; simpl; try (split; [ lia | ]; try reflexivity;
    intros; discriminate).
  destruct (Z.even m); split; try lia; intros; discriminate.
Qed.

(** Dropping the bits that do not fit leaves a positive mantissa, when the
    exponent reached is above the least one. *)
Lemma shift_positive (m e : Z) :
  0 < m ->
  -1074 < e + Z.max 0 (fexp prec emax (Zdigits2 m + e) - e) ->
  1 <= m / 2 ^ Z.max 0 (fexp prec emax (Zdigits2 m + e) - e).
Proof.
  intros Hm. rewrite fexp_spec.
  destruct (Zdigits2_bounds m Hm) as [Hd [Hl _]].
  intros He.
  destruct (Z_le_gt_dec (Z.max (Zdigits2 m + e - 53) (-1074) - e) 0) as [L|G].
  - replace (Z.max 0 _) with 0 by lia. rewrite Z.pow_0_r, Z.div_1_r. lia.
  - replace (Z.max 0 (Z.max (Zdigits2 m + e - 53) (-1074) - e))
      with (Zdigits2 m - 53) in * by lia.
    apply Z.div_le_lower_bound; [ apply Z.pow_pos_nonneg; lia | ].
    rewrite Z.mul_1_r.
    transitivity (2 ^ (Zdigits2 m - 1)); trivial.
    apply Z.pow_le_mono_r; lia.
Qed.

Lemma bounded_spec (ma : positive) (ea : Z) :
  bounded prec emax ma ea = true ->
  Z.max (Zdigits2 (Zpos ma) + ea - 53) (-1074) = ea /\ ea <= 971.
Proof.
  unfold bounded, canonical_mantissa. intros H.
  apply andb_prop in H. destruct H as [C B].
  apply Z.eqb_eq in C. apply Z.leb_le in B.
  rewrite fexp_spec in C. split; [ exact C | exact B ].
Qed.

(** Rounding a number that is at least a number of the format gives at
    least that number: an infinity, or a finite number with a larger
    exponent, or the same exponent and a larger mantissa. *)
Lemma round_aux_ge (s : bool) (m e : Z) (ma : positive) (ea : Z) :
  0 < m ->
  bounded prec emax ma ea = true ->
  (e <= ea -> Zpos ma * 2 ^ (ea - e) <= m) ->
  match binary_round_aux prec emax s m e loc_Exact with
  | S754_infinity s' => s' = s
  | S754_finite s' m3 e3 =>
      s' = s /\ (ea < e3 \/ (ea = e3 /\ Zpos ma <= Zpos m3))
  | _ => False
  end.
Proof.
  intros Hm Hb Hv. destruct (bounded_spec ma ea Hb) as [Ca Ba].
  destruct (Zdigits2_bounds (Zpos ma) eq_refl) as [Hda [Hal Hau]].
  destruct (Zdigits2_bounds m Hm) as [Hd [Hl Hu]].
  unfold binary_round_aux.
  destruct (shr_fexp_exact m e ltac:(lia)) as (M1 & E1 & _).
  destruct (shr_fexp prec emax m e loc_Exact) as [mrs1 e1].
  cbn [fst snd] in M1, E1.
  set (k := Z.max 0 (fexp prec emax (Zdigits2 m + e) - e)) in *.
  assert (Hk : 0 <= k) by (subst k; lia).
  assert (A : ea <= e1 /\ (e1 = ea -> Zpos ma <= shr_m mrs1)
              /\ 1 <= shr_m mrs1).
  { destruct (Z_le_gt_dec e ea) as [Le|Gt].
    - specialize (Hv Le).
      assert (D : Zdigits2 (Zpos ma) + ea <= Zdigits2 m + e).
      { assert (2 ^ (Zdigits2 (Zpos ma) - 1 + (ea - e)) < 2 ^ Zdigits2 m).
        { rewrite Z.pow_add_r by lia.
          assert (0 < 2 ^ (ea - e)) by (apply Z.pow_pos_nonneg; lia).
          nia. }
        apply Z.pow_lt_mono_r_iff in H; lia. }
      assert (F : ea <= fexp prec emax (Zdigits2 m + e)).
      { rewrite fexp_spec. lia. }
      assert (K : k = fexp prec emax (Zdigits2 m + e) - e)
        by (subst k; lia).
      assert (B2 : e1 = ea -> Zpos ma <= shr_m mrs1).
      { intros Q. rewrite M1.
        replace k with (ea - e) by lia.
        apply Z.div_le_lower_bound; [ apply Z.pow_pos_nonneg; lia | ].
        lia. }
      split; [ lia | ]. split; [ exact B2 | ].
      destruct (Z.eq_dec e1 ea) as [Q|Q].
      + specialize (B2 Q). lia.
      + rewrite M1. apply shift_positive; trivial. fold k. lia.
    - split; [ lia | ]. split; [ lia | ].
      rewrite M1. apply shift_positive; trivial. fold k. lia. }
  destruct A as (A1 & A2 & A3).
  destruct (round_nearest_even_bounds (shr_m mrs1) (loc_of_shr_record mrs1))
    as [[R1 R2] _].
  set (m2 := round_nearest_even (shr_m mrs1) (loc_of_shr_record mrs1)) in *.
  destruct (shr_fexp_exact m2 e1 ltac:(lia)) as (M3 & E3 & _).
  destruct (shr_fexp prec emax m2 e1 loc_Exact) as [mrs3 e3].
  cbn [fst snd] in M3, E3.
  set (k2 := Z.max 0 (fexp prec emax (Zdigits2 m2 + e1) - e1)) in *.
  assert (Hk2 : 0 <= k2) by (subst k2; lia).
  assert (P3 : 1 <= shr_m mrs3).
  { destruct (Z.eq_dec k2 0) as [Q|Q].
    - rewrite M3, Q, Z.pow_0_r, Z.div_1_r. lia.
    - rewrite M3. apply shift_positive; [ lia | ]. fold k2. lia. }
  destruct (shr_m mrs3) as [|p3|p3] eqn:S3; try lia.
  assert (L : ea < e3 \/ (ea = e3 /\ Zpos ma <= Zpos p3)).
  { destruct (Z.eq_dec k2 0) as [Q|Q].
    - rewrite Q, Z.pow_0_r, Z.div_1_r in M3. rewrite Q in E3.
      destruct (Z.eq_dec e1 ea) as [Q1|Q1].
      + right. split; [ lia | ]. specialize (A2 Q1). lia.
      + left. lia.
    - left. lia. }
  destruct (e3 <=? emax - prec); auto.
Qed.

(** Rounding a number that is at most a number of the format gives at
    most that number: a zero, or a finite number with a smaller exponent, or
    the same exponent and a smaller mantissa.  It does not overflow. *)
Lemma round_aux_le (s : bool) (m e : Z) (ma : positive) (ea : Z) :
  0 < m ->
  bounded prec emax ma ea = true ->
  e <= ea ->
  m <= Zpos ma * 2 ^ (ea - e) ->
  match binary_round_aux prec emax s m e loc_Exact with
  | S754_zero s' => s' = s
  | S754_finite s' m3 e3 =>
      s' = s /\ (e3 < ea \/ (e3 = ea /\ Zpos m3 <= Zpos ma))
  | _ => False
  end.
Proof.
  intros Hm Hb Le Hv. destruct (bounded_spec ma ea Hb) as [Ca Ba].
  destruct (Zdigits2_bounds (Zpos ma) eq_refl) as [Hda [Hal Hau]].
  destruct (Zdigits2_bounds m Hm) as [Hd [Hl Hu]].
  set (da := Zdigits2 (Zpos ma)) in *. set (d := Zdigits2 m) in *.
  assert (P0 : 0 < 2 ^ (ea - e)) by (apply Z.pow_pos_nonneg; lia).
  assert (D : d + e <= da + ea).
  { assert (2 ^ (d - 1) < 2 ^ (da + (ea - e))).
    { rewrite Z.pow_add_r by lia. nia. }
    apply Z.pow_lt_mono_r_iff in H; lia. }
  unfold binary_round_aux.
  destruct (shr_fexp_exact m e ltac:(lia)) as (M1 & E1 & X1).
  destruct (shr_fexp prec emax m e loc_Exact) as [mrs1 e1].
  cbn [fst snd] in M1, E1, X1. fold d in M1, E1, X1.
  rewrite fexp_spec in M1, E1, X1.
  set (k := Z.max 0 (Z.max (d + e - 53) (-1074) - e)) in *.
  assert (Hk : 0 <= k) by (subst k; lia).
  assert (Pk : 0 < 2 ^ k) by (apply Z.pow_pos_nonneg; lia).
  assert (N1 : 0 <= shr_m mrs1) by (rewrite M1; apply Z.div_pos; lia).
  destruct (round_nearest_even_bounds (shr_m mrs1) (loc_of_shr_record mrs1))
    as [[R1 R2] R3].
  set (m2 := round_nearest_even (shr_m mrs1) (loc_of_shr_record mrs1)) in *.
  (* what the first stage gives *)
  assert (A : e1 <= ea
              /\ -1074 <= e1
              /\ (e1 = ea -> m2 <= Zpos ma)
              /\ (e1 < ea -> 0 < m2 ->
                  (Zdigits2 m2 + e1 - 53 <= e1
                   \/ (e1 + 1 <= ea /\ Zdigits2 m2 = 54 /\ m2 <= 2 ^ 53
                       /\ -1074 < e1 + 1)))).
  { split; [ lia | ]. split; [ lia | ]. split.
    - intros Q. assert (K : k = ea - e) by lia.
      assert (U : shr_m mrs1 <= Zpos ma).
      { rewrite M1, K. apply Z.div_le_upper_bound; lia. }
      destruct (Z.eq_dec (shr_m mrs1) (Zpos ma)) as [Eq|Ne]; [ | lia ].
      assert (Mx : m = Zpos ma * 2 ^ (ea - e)).
      { pose proof (Z.mul_div_le m (2 ^ k) Pk) as T.
        rewrite <- M1, Eq, K in T. lia. }
      assert (Md : m mod 2 ^ k = 0).
      { rewrite Mx, K. apply Z.mod_mul. lia. }
      subst m2. rewrite (R3 (X1 Md)). lia.
    - intros Q Pm2.
      destruct (Z.eq_dec k 0) as [K0|Kp].
      + left.
        assert (Md : m mod 2 ^ k = 0)
          by (rewrite K0, Z.pow_0_r; apply Z.mod_1_r).
        assert (E2 : m2 = m).
        { subst m2. rewrite (R3 (X1 Md)), M1, K0, Z.pow_0_r, Z.div_1_r.
          reflexivity. }
        rewrite E2. fold d. lia.
      + assert (K : k = Z.max (d + e - 53) (-1074) - e) by lia.
        destruct (Z_le_gt_dec d k) as [Dk|Dk].
        * (* everything was shifted out *)
          left.
          assert (Z1 : shr_m mrs1 = 0).
          { rewrite M1. apply Z.div_small. split; [ lia | ].
            apply Z.lt_le_trans with (2 ^ d); [ lia | ].
            apply Z.pow_le_mono_r; lia. }
          assert (E2 : m2 = 1) by lia.
          rewrite E2. change (Zdigits2 1) with 1. lia.
        * assert (U : shr_m mrs1 < 2 ^ (d - k)).
          { rewrite M1. apply Z.div_lt_upper_bound; [ lia | ].
            rewrite <- Z.pow_add_r by lia.
            replace (k + (d - k)) with d by lia. lia. }
          assert (D2 : Zdigits2 m2 <= d - k + 1).
          { apply pow2_lt_digits; [ lia | lia | ].
            replace (d - k + 1) with (1 + (d - k)) by lia.
            rewrite Z.pow_add_r, Z.pow_1_r by lia. lia. }
          destruct (Z_le_gt_dec (Zdigits2 m2 + e1 - 53) e1) as [S|S];
            [ left; exact S | right ].
          assert (d - k = 53) by lia.
          assert (Zdigits2 m2 = 54) by lia.
          split; [ lia | ]. split; [ lia | ]. split; [ | lia ].
          replace 53 with (d - k) by lia. lia. }
  destruct A as (A1 & A0 & A2 & A3).
  destruct (shr_fexp_exact m2 e1 ltac:(lia)) as (M3 & E3 & _).
  destruct (shr_fexp prec emax m2 e1 loc_Exact) as [mrs3 e3].
  cbn [fst snd] in M3, E3. rewrite fexp_spec in M3, E3.
  set (k2 := Z.max 0 (Z.max (Zdigits2 m2 + e1 - 53) (-1074) - e1)) in *.
  assert (N3 : 0 <= shr_m mrs3)
    by (rewrite M3; apply Z.div_pos; [ lia | apply Z.pow_pos_nonneg; lia ]).
  assert (F : shr_m mrs3 = 0
              \/ (0 < shr_m mrs3 /\ e3 <= 971
                  /\ (e3 < ea \/ (e3 = ea /\ shr_m mrs3 <= Zpos ma)))).
  { destruct (Z.eq_dec m2 0) as [Z2|Z2].
    { left. rewrite M3, Z2. apply Z.div_0_l.
      apply Z.pow_nonzero; subst k2; lia. }
    assert (Pm2 : 0 < m2) by lia.
    destruct (Z.eq_dec e1 ea) as [Q|Q].
    - specialize (A2 Q).
      assert (D2 : Zdigits2 m2 <= da).
      { apply Zdigits2_monotone; lia. }
      assert (K2 : k2 = 0) by (subst k2; lia).
      rewrite K2, Z.pow_0_r, Z.div_1_r in M3. rewrite K2 in E3.
      right. split; [ lia | ]. split; [ lia | ]. right. split; lia.
    - assert (Q' : e1 < ea) by lia.
      destruct (A3 Q' Pm2) as [S|(S1 & S2 & S3 & S4)].
      + assert (K2 : k2 = 0) by (subst k2; lia).
        rewrite K2, Z.pow_0_r, Z.div_1_r in M3. rewrite K2 in E3.
        right. split; [ lia | ]. split; [ lia | ]. left. lia.
      + assert (K2 : k2 = 1) by (subst k2; lia).
        rewrite K2, Z.pow_1_r in M3. rewrite K2 in E3.
        assert (U3 : shr_m mrs3 <= 2 ^ 52).
        { rewrite M3. apply Z.div_le_upper_bound; [ lia | ].
          change (2 * 2 ^ 52) with (2 ^ 53). exact S3. }
        assert (L3 : 1 <= shr_m mrs3).
        { rewrite M3. apply Z.div_le_lower_bound; [ lia | ].
          destruct (Zdigits2_bounds m2 Pm2) as [_ [Lo _]].
          rewrite S2 in Lo. change (2 ^ (54 - 1)) with (2 ^ 53) in Lo.
          assert (2 <= 2 ^ 53) by (vm_compute; discriminate). lia. }
        right. split; [ lia | ]. split; [ lia | ].
        destruct (Z.eq_dec e3 ea) as [Q3|Q3]; [ right | left; lia ].
        split; [ exact Q3 | ].
        assert (da = 53) by lia.
        assert (2 ^ 52 <= Zpos ma).
        { replace 52 with (da - 1) by lia. exact Hal. }
        lia. }
  destruct F as [F|(F1 & F2 & F3)].
  - rewrite F. reflexivity.
  - destruct (shr_m mrs3) as [|p3|p3]; try lia.
    change (emax - prec) with 971.
    destruct (Z.leb_spec e3 971); [ auto | lia ].
Qed.

(** [shl_align] lowers the exponent to the one asked for, if that is lower,
    and keeps the value. *)
Lemma iter_xO (m d : positive) :
  Zpos (Pos.iter xO m d) = Zpos m * 2 ^ Zpos d.
Proof.
  rewrite <- Z.shiftl_mul_pow2 by lia. unfold Z.shiftl.
  apply (Pos.iter_swap_gen _ _ Zpos xO (Z.mul 2)). intros a. reflexivity.
Qed.

Lemma shl_align_spec (m : positive) (e e' : Z) :
  snd (shl_align m e e') = Z.min e e'
  /\ Zpos (fst (shl_align m e e')) = Zpos m * 2 ^ (e - Z.min e e').
Proof.
  unfold shl_align. destruct (e' - e) as [|p|p] eqn:E; cbn [fst snd].
  - replace (Z.min e e') with e by lia.
    rewrite Z.sub_diag, Z.pow_0_r. lia.
  - replace (Z.min e e') with e by lia.
    rewrite Z.sub_diag, Z.pow_0_r. lia.
  - replace (Z.min e e') with e' by lia.
    rewrite iter_xO. split; [ reflexivity | ]. f_equal. f_equal. lia.
Qed.

Lemma round_ge (s : bool) (m : positive) (e : Z) (ma : positive) (ea : Z) :
  bounded prec emax ma ea = true ->
  e <= ea ->
  Zpos ma * 2 ^ (ea - e) <= Zpos m ->
  match binary_round prec emax s m e with
  | S754_infinity s' => s' = s
  | S754_finite s' m3 e3 =>
      s' = s /\ (ea < e3 \/ (ea = e3 /\ Zpos ma <= Zpos m3))
  | _ => False
  end.
Proof.
  intros Hb Le Hv. unfold binary_round.
  destruct (shl_align_spec m e
              (fexp prec emax (Zpos (digits2_pos m) + e))) as [Ez Mz].
  destruct (shl_align m e _) as [mz ez]. cbn [fst snd] in Ez, Mz.
  apply round_aux_ge; trivial; [ lia | ].
  intros _. rewrite Mz, <- Ez.
  replace (ea - ez) with ((ea - e) + (e - ez)) by lia.
  rewrite Z.pow_add_r by lia.
  assert (0 < 2 ^ (e - ez)) by (apply Z.pow_pos_nonneg; lia).
  nia.
Qed.

Lemma round_le (s : bool) (m : positive) (e : Z) (ma : positive) (ea : Z) :
  bounded prec emax ma ea = true ->
  e <= ea ->
  Zpos m <= Zpos ma * 2 ^ (ea - e) ->
  match binary_round prec emax s m e with
  | S754_zero s' => s' = s
  | S754_finite s' m3 e3 =>
      s' = s /\ (e3 < ea \/ (e3 = ea /\ Zpos m3 <= Zpos ma))
  | _ => False
  end.
Proof.
  intros Hb Le Hv. unfold binary_round.
  destruct (shl_align_spec m e
              (fexp prec emax (Zpos (digits2_pos m) + e))) as [Ez Mz].
  destruct (shl_align m e _) as [mz ez]. cbn [fst snd] in Ez, Mz.
  apply round_aux_le; trivial; try lia.
  rewrite Mz, <- Ez.
  replace (ea - ez) with ((ea - e) + (e - ez)) by lia.
  rewrite Z.pow_add_r by lia.
  assert (0 < 2 ^ (e - ez)) by (apply Z.pow_pos_nonneg; lia).
  nia.
Qed.

(** Comparing finite numbers of one sign by exponent, then mantissa. *)
Lemma geb_finite_pos (m3 ma : positive) (e3 ea : Z) :
  ea < e3 \/ (ea = e3 /\ Zpos ma <= Zpos m3) ->
  geb (S754_finite false m3 e3) (S754_finite false ma ea) = true.
Proof.
  unfold geb. cbn [SFcompare]. intros [L|[E L]].
  - apply Z.gt_lt_iff in L. apply Z.compare_gt_iff in L.
    now rewrite (proj2 (Z.compare_gt_iff e3 ea)) by lia.
  - subst. rewrite Z.compare_refl.
    change (Pos.compare_cont Eq m3 ma) with (Pos.compare m3 ma).
    destruct (Pos.compare_spec m3 ma); trivial. lia.
Qed.

Lemma geb_finite_neg (m3 ma : positive) (e3 ea : Z) :
  e3 < ea \/ (e3 = ea /\ Zpos m3 <= Zpos ma) ->
  geb (S754_finite true m3 e3) (S754_finite true ma ea) = true.
Proof.
  unfold geb. cbn [SFcompare]. intros [L|[E L]].
  - now rewrite (proj2 (Z.compare_lt_iff e3 ea)) by lia.
  - subst. rewrite Z.compare_refl.
    change (Pos.compare_cont Eq m3 ma) with (Pos.compare m3 ma).
    destruct (Pos.compare_spec m3 ma); trivial. lia.
Qed.

(** Adding a number that is ≥ 0 to a finite number of the format does not
    give less: the rounded sum is ≥ the number. *)
Lemma add_nonneg_ge (a b : float64) :
  is_binary64 a = true -> is_finite a = true ->
  geb b (of_Z 0) = true ->
  geb (add a b) a = true.
Proof.
  intros Va Fa Hb.
  destruct a as [sa| | |sa ma ea]; try discriminate.
  - destruct b as [sb|sb| |sb mb eb]; try discriminate;
      destruct sb; try discriminate; try reflexivity;
      destruct sa; reflexivity.
  - assert (Ra : geb (S754_finite sa ma ea) (S754_finite sa ma ea) = true)
      by (now apply geb_refl).
    destruct b as [sb|sb| |sb mb eb]; try discriminate.
    + exact Ra.
    + destruct sb; try discriminate. now destruct sa.
    + destruct sb; try discriminate.
      unfold is_binary64 in Va. cbn [valid_binary] in Va.
      unfold add. cbn [SFadd].
      set (ez := Z.min ea eb).
      destruct (shl_align_spec ma ea ez) as [_ Ma].
      destruct (shl_align_spec mb eb ez) as [_ Mb].
      replace (Z.min ea ez) with ez in Ma by lia.
      replace (Z.min eb ez) with ez in Mb by lia.
      set (A := Zpos (fst (shl_align ma ea ez))) in *.
      set (B := Zpos (fst (shl_align mb eb ez))) in *.
      assert (PB : 0 < B) by (subst B; lia).
      assert (PA : 0 < A) by (subst A; lia).
      cbn [cond_Zopp].
      destruct sa; cbn [cond_Zopp].
      * (* a < 0 *)
        destruct (- A + B) as [|p|p] eqn:Z; cbn [binary_normalize].
        -- reflexivity.
        -- pose proof (binary_round_sign false p ez) as S.
           destruct (binary_round prec emax false p ez) as [s'|s'| |s' m' e'];
             try discriminate; injection S as ->; reflexivity.
        -- pose proof (round_le true p ez ma ea Va ltac:(lia)) as R.
           rewrite <- Ma in R. specialize (R ltac:(lia)).
           destruct (binary_round prec emax true p ez) as [s'|s'| |s' m' e'];
             try contradiction.
           ++ subst. reflexivity.
           ++ destruct R as [-> R]. now apply geb_finite_neg.
      * (* a > 0 *)
        destruct (A + B) as [|p|p] eqn:Z; try lia. cbn [binary_normalize].
        pose proof (round_ge false p ez ma ea Va ltac:(lia)) as R.
        rewrite <- Ma in R. specialize (R ltac:(lia)).
        destruct (binary_round prec emax false p ez) as [s'|s'| |s' m' e'];
          try contradiction.
        -- subst. reflexivity.
        -- destruct R as [-> R]. now apply geb_finite_pos.
Qed.

(** Of two finite numbers of the format, the one with the smaller exponent
    is the smaller in magnitude. *)
Lemma canonical_order (m1 m2 : positive) (e1 e2 : Z) :
  bounded prec emax m1 e1 = true -> bounded prec emax m2 e2 = true ->
  e1 < e2 -> Zpos m1 < Zpos m2 * 2 ^ (e2 - e1).
Proof.
  intros B1 B2 L.
  destruct (bounded_spec m1 e1 B1) as [C1 _].
  destruct (bounded_spec m2 e2 B2) as [C2 _].
  destruct (Zdigits2_bounds (Zpos m1) eq_refl) as [D1 [_ U1]].
  destruct (Zdigits2_bounds (Zpos m2) eq_refl) as [D2 [L2 _]].
  assert (E2 : Zdigits2 (Zpos m2) = 53) by lia.
  rewrite E2 in L2. change (2 ^ (53 - 1)) with (2 ^ 52) in L2.
  assert (U : 2 ^ Zdigits2 (Zpos m1) <= 2 ^ 53)
    by (apply Z.pow_le_mono_r; lia).
  assert (P : 2 ^ 1 <= 2 ^ (e2 - e1)) by (apply Z.pow_le_mono_r; lia).
  rewrite Z.pow_1_r in P.
  change (2 ^ 53) with (2 ^ 52 * 2) in U. nia.
Qed.

(** The sign of the exact difference of two finite numbers of the format,
    as [SFsub] computes it before rounding, follows their comparison. *)
Lemma aligned_difference_nonneg (sa sb : bool) (ma mb : positive) (ea eb : Z) :
  bounded prec emax ma ea = true -> bounded prec emax mb eb = true ->
  geb (S754_finite sa ma ea) (S754_finite sb mb eb) = true ->
  0 <= cond_Zopp sa (Zpos (fst (shl_align ma ea (Z.min ea eb))))
       - cond_Zopp sb (Zpos (fst (shl_align mb eb (Z.min ea eb)))).
Proof.
  intros Ba Bb G.
  destruct (shl_align_spec ma ea (Z.min ea eb)) as [_ Ma].
  destruct (shl_align_spec mb eb (Z.min ea eb)) as [_ Mb].
  replace (Z.min ea (Z.min ea eb)) with (Z.min ea eb) in Ma by lia.
  replace (Z.min eb (Z.min ea eb)) with (Z.min ea eb) in Mb by lia.
  rewrite Ma, Mb. clear Ma Mb.
  unfold geb in G. cbn [SFcompare] in G.
  destruct sa, sb; cbn [cond_Zopp]; try discriminate G; try lia.
  - (* both negative *)
    destruct (Z.compare_spec ea eb) as [E|L|L]; try discriminate G.
    + subst. replace (Z.min eb eb) with eb by lia.
      rewrite Z.sub_diag, Z.pow_0_r.
      change (Pos.compare_cont Eq ma mb) with (Pos.compare ma mb) in G.
      destruct (Pos.compare_spec ma mb); try discriminate G; lia.
    + replace (Z.min ea eb) with ea by lia.
      rewrite Z.sub_diag, Z.pow_0_r.
      pose proof (canonical_order ma mb ea eb Ba Bb L). lia.
  - (* both positive *)
    destruct (Z.compare_spec ea eb) as [E|L|L]; try discriminate G.
    + subst. replace (Z.min eb eb) with eb by lia.
      rewrite Z.sub_diag, Z.pow_0_r.
      change (Pos.compare_cont Eq ma mb) with (Pos.compare ma mb) in G.
      destruct (Pos.compare_spec ma mb); try discriminate G; lia.
    + replace (Z.min ea eb) with eb by lia.
      rewrite Z.sub_diag, Z.pow_0_r.
      pose proof (canonical_order mb ma eb ea Bb Ba L). lia.
Qed.

(** [a − b] is ≥ 0 when [a] ≥ [b], and ≤ 0 when [a] ≤ [b], for numbers of
    the format with [b] finite. *)
Lemma sub_ge_0 (a b : float64) :
  is_binary64 a = true -> is_binary64 b = true -> is_finite b = true ->
  geb a b = true -> geb (sub a b) (of_Z 0) = true.
Proof.
  intros Va Vb Fb G.
  destruct a as [sa|sa| |sa ma ea], b as [sb|sb| |sb mb eb];
    try discriminate.
  - now destruct sa, sb.
  - destruct sb; try discriminate G. reflexivity.
  - now destruct sa.
  - now destruct sa.
  - destruct sa; try discriminate G. reflexivity.
  - pose proof (aligned_difference_nonneg sa sb ma mb ea eb Va Vb G) as N.
    apply sign_false_ge_0. unfold sub. cbn [SFsub].
    rewrite binary_normalize_sign. f_equal. apply Z.ltb_ge. exact N.
Qed.

Lemma sub_le_0 (a b : float64) :
  is_binary64 a = true -> is_binary64 b = true -> is_finite b = true ->
  geb b a = true -> geb (of_Z 0) (sub a b) = true.
Proof.
  intros Va Vb Fb G.
  destruct a as [sa|sa| |sa ma ea], b as [sb|sb| |sb mb eb];
    try discriminate.
  - now destruct sa, sb.
  - destruct sb; try discriminate G. reflexivity.
  - now destruct sa.
  - now destruct sa.
  - destruct sa; try discriminate G. reflexivity.
  - pose proof (aligned_difference_nonneg sb sa mb ma eb ea Vb Va G) as N.
    rewrite (Z.min_comm eb ea) in N.
    unfold sub. cbn [SFsub].
    set (z := cond_Zopp sa (Zpos (fst (shl_align ma ea (Z.min ea eb))))
              - cond_Zopp sb (Zpos (fst (shl_align mb eb (Z.min ea eb)))))
      in *.
    assert (Hz : z <= 0) by (subst z; lia).
    destruct (Z.eq_dec z 0) as [E|E].
    + rewrite E. reflexivity.
    + apply sign_true_le_0. rewrite binary_normalize_sign.
      f_equal. apply Z.ltb_lt. lia.
Qed.








(** Quotients by a finite number other than 0: the signs multiply. *)
Lemma div_nonneg_pos (n r : float64) :
  geb n (of_Z 0) = true -> is_finite r = true -> gtb r (of_Z 0) = true ->
  geb (div n r) (of_Z 0) = true.
Proof.
  intros Hn Fr Hr. destruct (gt_0_sign r Hr) as [Zr Sr].
  destruct (ge_0_cases n Hn) as [Zn|Sn].
  - destruct n, r; try discriminate; reflexivity.
  - apply sign_false_ge_0. change false with (xorb false false).
    now apply div_sign.
Qed.

Lemma div_nonpos_neg (n r : float64) :
  geb (of_Z 0) n = true -> is_finite r = true -> ltb r (of_Z 0) = true ->
  geb (div n r) (of_Z 0) = true.
Proof.
  intros Hn Fr Hr. destruct (lt_0_sign r Hr) as [Zr Sr].
  destruct (le_0_cases n Hn) as [Zn|Sn].
  - destruct n, r; try discriminate; reflexivity.
  - apply sign_false_ge_0. change false with (xorb true true).
    now apply div_sign.
Qed.

(** Multiplying a number of the format by 1 is exact. *)
Lemma mul_1_r (a : float64) : is_binary64 a = true -> mul a (of_Z 1) = a.
Proof.
  intros Va.
  change (of_Z 1) with (S754_finite false 4503599627370496 (-52)).
  destruct a as [s|s| |s m e]; unfold mul; cbn [SFmul];
    try (now rewrite xorb_false_r); trivial.
  rewrite xorb_false_r.
  unfold is_binary64 in Va. cbn [valid_binary] in Va.
  assert (V : Zpos (m * 4503599627370496) = Zpos m * 2 ^ (e - (e + -52))).
  { rewrite Pos2Z.inj_mul. replace (e - (e + -52)) with 52 by lia.
    reflexivity. }
  pose proof (round_aux_ge s (Zpos (m * 4503599627370496)) (e + -52) m e
                eq_refl Va ltac:(intros _; lia)) as G.
  pose proof (round_aux_le s (Zpos (m * 4503599627370496)) (e + -52) m e
                eq_refl Va ltac:(lia) ltac:(lia)) as L.
  destruct (binary_round_aux prec emax s _ _ loc_Exact) as [s'|s'| |s' m' e'];
    try contradiction.
  destruct G as [-> G], L as [_ L].
  assert (e' = e /\ Zpos m' = Zpos m) by lia.
  destruct H as [-> H]. injection H as ->. reflexivity.
Qed.

End Rounding64.

(** ** Months to the goal *)

Section MonthsToGoal.

Import SpecFloat JS64 FinancialPlanning64.

Variable pow_approx : float64 -> float64 -> float64.

Lemma monthsToGoal_unfold (g : Goal.Data) :
  Goal.monthsToGoal (calculateGoal pow_approx g)
  = Math_ceil (remaining g / Goal.monthlyContribution g)%js64.
Proof. reflexivity. Qed.

(** With finite amounts [remaining] has a sign: it is never [NaN]. *)
Lemma remaining_sign (g : Goal.Data) :
  is_finite (Goal.targetAmount g) = true ->
  is_finite (Goal.currentAmount g) = true ->
  exists s, sign_of (remaining g) = Some s.
Proof.
  intros Ht Hc. apply not_nan_sign. now apply sub_finite_not_nan.
Qed.

(** Dividing by a finite contribution other than 0 and rounding up: the
    signs multiply. *)
Lemma monthsToGoal_sign (g : Goal.Data) (s sm : bool) :
  sign_of (remaining g) = Some s ->
  is_finite (Goal.monthlyContribution g) = true ->
  is_zero (Goal.monthlyContribution g) = false ->
  sign_of (Goal.monthlyContribution g) = Some sm ->
  sign_of (Goal.monthsToGoal (calculateGoal pow_approx g))
  = Some (xorb s sm).
Proof.
  intros Hr Hf Hz Hs. rewrite monthsToGoal_unfold, Math_ceil_sign.
  now apply div_sign.
Qed.

End MonthsToGoal.

(** C2, as the code has it: [remaining] is targetAmount − currentAmount,
    without a clamp at 0.  For finite amounts and a finite monthlyContribution
    > 0, monthsToGoal is Math.ceil(remaining / monthlyContribution) in
    binary64; it is never [NaN] and has the sign of [remaining]: it is ≥ 0
    when remaining ≥ 0, as it is whenever currentAmount ≤ targetAmount, and
    ≤ 0 (never positive) when remaining < 0. *)
Theorem C2_monthsToGoal_follows_remaining :
  forall (pow_approx : JS64.float64 -> JS64.float64 -> JS64.float64)
         (g : FinancialPlanning64.Goal.Data),
    JS64.is_finite (FinancialPlanning64.Goal.targetAmount g) = true ->
    JS64.is_finite (FinancialPlanning64.Goal.currentAmount g) = true ->
    JS64.is_finite (FinancialPlanning64.Goal.monthlyContribution g) = true ->
    Spec64.lt (JS64.of_Z 0) (FinancialPlanning64.Goal.monthlyContribution g) ->
    let months :=
      FinancialPlanning64.Goal.monthsToGoal
        (FinancialPlanning64.calculateGoal pow_approx g) in
    months
    = JS64.Math_ceil
        ((FinancialPlanning64.Goal.targetAmount g
          - FinancialPlanning64.Goal.currentAmount g)
         / FinancialPlanning64.Goal.monthlyContribution g)%js64
    /\ JS64.is_nan months = false
    /\ JS64.sign_of months
       = JS64.sign_of (FinancialPlanning64.remaining g)
    /\ (Spec64.le (JS64.of_Z 0) (FinancialPlanning64.remaining g) ->
        Spec64.le (JS64.of_Z 0) months)
    /\ (Spec64.lt (FinancialPlanning64.remaining g) (JS64.of_Z 0) ->
        Spec64.le months (JS64.of_Z 0))
    /\ (JS64.is_binary64 (FinancialPlanning64.Goal.targetAmount g) = true ->
        JS64.is_binary64 (FinancialPlanning64.Goal.currentAmount g) = true ->
        Spec64.le (FinancialPlanning64.Goal.currentAmount g)
                  (FinancialPlanning64.Goal.targetAmount g) ->
        Spec64.le (JS64.of_Z 0) (FinancialPlanning64.remaining g)
        /\ Spec64.le (JS64.of_Z 0) months).
Proof.
  intros pa g Ht Hc Hf Hpos months.
  assert (Hm : JS64.is_zero (FinancialPlanning64.Goal.monthlyContribution g)
               = false
               /\ JS64.sign_of (FinancialPlanning64.Goal.monthlyContribution g)
                  = Some false).
  { apply gt_0_sign. unfold Spec64.lt, JS64.ltb in Hpos. unfold JS64.gtb.
    rewrite SFcompare_antisym.
    destruct (SpecFloat.SFcompare _ _) as [[| |]|]; try discriminate.
    reflexivity. }
  destruct Hm as [Hz Hs].
  destruct (remaining_sign g Ht Hc) as [s Hr].
  assert (S : JS64.sign_of months = Some s).
  { subst months. rewrite (monthsToGoal_sign pa g s false Hr Hf Hz Hs).
    now rewrite xorb_false_r. }
  split; [ reflexivity | ].
  split; [ now apply (sign_not_nan _ s) | ].
  split; [ congruence | ].
  assert (Pos : Spec64.le (JS64.of_Z 0) (FinancialPlanning64.remaining g) ->
                Spec64.le (JS64.of_Z 0) months).
  { intros Hge. unfold Spec64.le in *.
    destruct (ge_0_cases _ Hge) as [Z0 | Sf].
    + apply zero_ge_0. subst months. rewrite monthsToGoal_unfold.
      destruct (FinancialPlanning64.remaining g); try discriminate.
      destruct (FinancialPlanning64.Goal.monthlyContribution g);
        try discriminate; reflexivity.
    + apply sign_false_ge_0. congruence. }
  split; [ exact Pos | ]. split.
  - intros Hlt. unfold Spec64.le, Spec64.lt in *.
    apply sign_true_le_0. destruct (lt_0_sign _ Hlt). congruence.
  - intros Vt Vc Hle.
    assert (R : Spec64.le (JS64.of_Z 0) (FinancialPlanning64.remaining g))
      by (now apply sub_ge_0).
    split; [ exact R | exact (Pos R) ].
Qed.

(** C2 at the initial state: 80000 remaining at 2000 a month. *)
Lemma C2_monthsToGoal_follows_remaining_witness :
  let g :=
    FinancialPlanning64.goalData_with
      (JS64.of_Z 100000) (JS64.of_Z 20000) (JS64.of_Z 2000) in
  FinancialPlanning64.Goal.monthsToGoal
    (FinancialPlanning64.calculateGoal JS64.pow_by_products g)
  = JS64.Math_ceil ((JS64.of_Z 100000 - JS64.of_Z 20000)
                    / JS64.of_Z 2000)%js64
  /\ Spec64.le (JS64.of_Z 0)
       (FinancialPlanning64.Goal.monthsToGoal
          (FinancialPlanning64.calculateGoal JS64.pow_by_products g)).
Proof.
  pose proof (C2_monthsToGoal_follows_remaining JS64.pow_by_products
                (FinancialPlanning64.goalData_with
                   (JS64.of_Z 100000) (JS64.of_Z 20000) (JS64.of_Z 2000))
                eq_refl eq_refl eq_refl eq_refl) as H.
  cbv zeta in H. destruct H as (H1 & _ & _ & _ & _ & H6).
  split; [ exact H1 | exact (proj2 (H6 eq_refl eq_refl eq_refl)) ].
Defined.

(** Two inputs against the claim.  With 300000 saved towards a target of
    100000 at 2000 a month the code returns monthsToGoal = −100, where
    ceil(max(−200000, 0)/2000) is 0.  With 3.000000000000002 to go at
    1.0000000000000007 a month the quotient rounds to 3, so monthsToGoal is 3
    and monthsToGoal × monthlyContribution is below the remainder. *)
Lemma C2_overfunded_counterexample :
  (let g :=
     FinancialPlanning64.goalData_with
       (JS64.of_Z 100000) (JS64.of_Z 300000) (JS64.of_Z 2000) in
   let months :=
     FinancialPlanning64.Goal.monthsToGoal
       (FinancialPlanning64.calculateGoal JS64.pow_by_products g) in
   Spec64.lt (JS64.of_Z 0) (FinancialPlanning64.Goal.monthlyContribution g)
   /\ months = JS64.of_Z (-100)
   /\ Spec64.monthsToGoal (JS64.of_Z 100000) (JS64.of_Z 300000)
        (JS64.of_Z 2000) = JS64.of_Z 0
   /\ ~ Spec64.le (JS64.of_Z 0) months)
  /\
  (let g :=
     FinancialPlanning64.goalData_with
       FinancialPlanning64.just_above_3 (JS64.of_Z 0)
       FinancialPlanning64.just_above_1 in
   let months :=
     FinancialPlanning64.Goal.monthsToGoal
       (FinancialPlanning64.calculateGoal JS64.pow_by_products g) in
   Spec64.lt (JS64.of_Z 0) (FinancialPlanning64.Goal.monthlyContribution g)
   /\ JS64.is_binary64 FinancialPlanning64.just_above_3 = true
   /\ JS64.is_binary64 FinancialPlanning64.just_above_1 = true
   /\ FinancialPlanning64.remaining g = FinancialPlanning64.just_above_3
   /\ months = JS64.of_Z 3
   /\ months = Spec64.monthsToGoal FinancialPlanning64.just_above_3
                 (JS64.of_Z 0) FinancialPlanning64.just_above_1
   /\ Spec64.lt (months * FinancialPlanning64.Goal.monthlyContribution g)%js64
                (FinancialPlanning64.remaining g)
   /\ ~ Spec64.le (FinancialPlanning64.remaining g)
          (months * FinancialPlanning64.Goal.monthlyContribution g)%js64).
Proof.
  cbv zeta. unfold Spec64.le, Spec64.lt.
  repeat split; try (vm_compute; reflexivity); vm_compute; discriminate.
Qed.

(** C3, as the code has it: [calculateGoal] does not look at the sign of
    monthlyContribution and has no error path; for monthlyContribution ≤ 0 it
    returns a PlanningResult like for any other input.  Its monthsToGoal is
    Math.ceil(remaining / monthlyContribution): with a contribution of +0 or
    −0 that is [NaN] when [remaining] is a zero or [NaN], and otherwise the
    infinity whose sign is the sign of [remaining] times the sign of the zero;
    with a finite negative contribution and finite amounts it is never [NaN]
    and has the sign opposite to [remaining]. *)
Theorem C3_calculateGoal_nonpositive_contribution :
  forall (pow_approx : JS64.float64 -> JS64.float64 -> JS64.float64)
         (g : FinancialPlanning64.Goal.Data),
    Spec64.le (FinancialPlanning64.Goal.monthlyContribution g) (JS64.of_Z 0) ->
    let months :=
      FinancialPlanning64.Goal.monthsToGoal
        (FinancialPlanning64.calculateGoal pow_approx g) in
    months
    = JS64.Math_ceil
        ((FinancialPlanning64.Goal.targetAmount g
          - FinancialPlanning64.Goal.currentAmount g)
         / FinancialPlanning64.Goal.monthlyContribution g)%js64
    /\ (forall sz : bool,
          FinancialPlanning64.Goal.monthlyContribution g
          = SpecFloat.S754_zero sz ->
          months
          = match FinancialPlanning64.remaining g with
            | SpecFloat.S754_zero _ | SpecFloat.S754_nan => JS64.nan
            | SpecFloat.S754_infinity s | SpecFloat.S754_finite s _ _ =>
                SpecFloat.S754_infinity (xorb s sz)
            end)
    /\ (JS64.is_finite (FinancialPlanning64.Goal.targetAmount g) = true ->
        JS64.is_finite (FinancialPlanning64.Goal.currentAmount g) = true ->
        JS64.is_finite (FinancialPlanning64.Goal.monthlyContribution g) = true ->
        JS64.is_zero (FinancialPlanning64.Goal.monthlyContribution g) = false ->
        JS64.is_nan months = false
        /\ JS64.sign_of months
           = option_map negb
               (JS64.sign_of (FinancialPlanning64.remaining g))).
Proof.
  intros pa g Hle months.
  split; [ reflexivity | ]. split.
  - intros sz Hz. subst months. rewrite monthsToGoal_unfold, Hz, div_by_zero.
    now destruct (FinancialPlanning64.remaining g).
  - intros Ht Hc Hf Hz.
    destruct (le_0_cases _ Hle) as [Z0 | Hs]; [ congruence | ].
    destruct (remaining_sign g Ht Hc) as [s Hr].
    assert (S : JS64.sign_of months = Some (xorb s true)).
    { subst months. now apply monthsToGoal_sign. }
    split; [ now apply (sign_not_nan _ (xorb s true)) | ].
    rewrite S, Hr. simpl. now rewrite xorb_true_r.
Qed.

(** C3 at the initial state with the contribution set to −2000: monthsToGoal
    is a number, negative as the remainder 80000 is positive. *)
Lemma C3_calculateGoal_nonpositive_contribution_witness :
  let g :=
    FinancialPlanning64.goalData_with
      (JS64.of_Z 100000) (JS64.of_Z 20000) (JS64.of_Z (-2000)) in
  let months :=
    FinancialPlanning64.Goal.monthsToGoal
      (FinancialPlanning64.calculateGoal JS64.pow_by_products g) in
  Spec64.le (FinancialPlanning64.Goal.monthlyContribution g) (JS64.of_Z 0)
  /\ JS64.is_nan months = false
  /\ JS64.sign_of months
     = option_map negb (JS64.sign_of (FinancialPlanning64.remaining g)).
Proof.
  cbv zeta. split; [ reflexivity | ].
  exact (proj2 (proj2
    (C3_calculateGoal_nonpositive_contribution JS64.pow_by_products
       (FinancialPlanning64.goalData_with
          (JS64.of_Z 100000) (JS64.of_Z 20000) (JS64.of_Z (-2000)))
       eq_refl))
    eq_refl eq_refl eq_refl eq_refl).
Defined.

(** With the contribution set to 0 the call returns a PlanningResult whose
    monthsToGoal is +Infinity, and with −0 one whose monthsToGoal is
    −Infinity: the infinite horizon is not signalled, it is in the result. *)
Lemma C3_zero_contribution_counterexample :
  (let g :=
     FinancialPlanning64.goalData_with
       (JS64.of_Z 100000) (JS64.of_Z 20000) JS64.pos_zero in
   Spec64.le (FinancialPlanning64.Goal.monthlyContribution g) (JS64.of_Z 0)
   /\ FinancialPlanning64.Goal.monthsToGoal
        (FinancialPlanning64.calculateGoal JS64.pow_by_products g)
      = JS64.pos_inf)
  /\
  (let g :=
     FinancialPlanning64.goalData_with
       (JS64.of_Z 100000) (JS64.of_Z 20000) JS64.neg_zero in
   Spec64.le (FinancialPlanning64.Goal.monthlyContribution g) (JS64.of_Z 0)
   /\ FinancialPlanning64.Goal.monthsToGoal
        (FinancialPlanning64.calculateGoal JS64.pow_by_products g)
      = JS64.neg_inf)
  /\
  (let g :=
     FinancialPlanning64.goalData_with
       (JS64.of_Z 20000) (JS64.of_Z 20000) JS64.pos_zero in
   JS64.is_nan
     (FinancialPlanning64.Goal.monthsToGoal
        (FinancialPlanning64.calculateGoal JS64.pow_by_products g)) = true).
Proof.
  cbv zeta. unfold Spec64.le.
  repeat split; vm_compute; reflexivity.
Qed.

(** ** Scores of the portfolio *)

Section Scores64.

Import SpecFloat JS64 PortfolioAnalyzer64.

Lemma of_Z_100 : of_Z 100 = S754_finite false 7036874417766400 (-46).
Proof. reflexivity. Qed.











End Scores64.



(** ** Contributions and future savings *)

Section Contributions64.

Import SpecFloat JS64 FinancialPlanning64.

Variable pow_approx : float64 -> float64 -> float64.

Lemma totalAtRetirement_unfold (d : Retirement.Data) :
  Retirement.totalAtRetirement (calculateRetirement pow_approx d)
  = (futureCurrentSavings pow_approx d
     + retirement_futureContributions pow_approx d)%js64.
Proof. reflexivity. Qed.

(** A rate of +0 or −0 gives a monthly rate of +0 or −0. *)
Lemma monthlyReturn_zero (d : Retirement.Data) :
  is_zero (Retirement.expectedReturn d) = true ->
  is_zero (retirement_monthlyReturn d) = true.
Proof.
  unfold retirement_monthlyReturn.
  destruct (Retirement.expectedReturn d); try discriminate. reflexivity.
Qed.

(** With a monthly rate of +0 or −0 (a rate of 0, or one so small that the
    monthly rate underflows) the annuity factor is 0/0. *)
Lemma futureContributions_zero_rate (d : Retirement.Data) :
  is_zero (retirement_monthlyReturn d) = true ->
  (forall y, pow_approx (of_Z 1) y = of_Z 1) ->
  is_nan (retirement_futureContributions pow_approx d) = true.
Proof.
  intros Hz Hone. unfold retirement_futureContributions.
  apply mul_nan_r. unfold retirement_annuityFactor.
  destruct (retirement_monthlyReturn d) as [s| | |]; try discriminate.
  change (of_Z 1 + S754_zero s)%js64 with (of_Z 1).
  destruct (monthsToRetirement d) as [se|se| |se me ee].
  - reflexivity.
  - reflexivity.
  - reflexivity.
  - change (Math_pow pow_approx (of_Z 1) (S754_finite se me ee))
      with (pow_approx (of_Z 1) (S754_finite se me ee)).
    rewrite Hone. reflexivity.
Qed.

(** The annuity factor is ≥ 0 when the power is on the same side of 1 as
    the base: ≥ 1 for a positive monthly rate, ≤ 1 for a negative one. *)
Lemma annuityFactor_nonneg_up (d : Retirement.Data) :
  is_finite (retirement_monthlyReturn d) = true ->
  gtb (retirement_monthlyReturn d) (of_Z 0) = true ->
  is_binary64 (Math_pow pow_approx (of_Z 1 + retirement_monthlyReturn d)%js64
                 (monthsToRetirement d)) = true ->
  geb (Math_pow pow_approx (of_Z 1 + retirement_monthlyReturn d)%js64
         (monthsToRetirement d)) (of_Z 1) = true ->
  geb (retirement_annuityFactor pow_approx d) (of_Z 0) = true.
Proof.
  intros Fr Pr Vp Gp. unfold retirement_annuityFactor.
  apply div_nonneg_pos; trivial.
  apply sub_ge_0; trivial; reflexivity.
Qed.

Lemma annuityFactor_nonneg_down (d : Retirement.Data) :
  is_finite (retirement_monthlyReturn d) = true ->
  ltb (retirement_monthlyReturn d) (of_Z 0) = true ->
  is_binary64 (Math_pow pow_approx (of_Z 1 + retirement_monthlyReturn d)%js64
                 (monthsToRetirement d)) = true ->
  geb (of_Z 1)
      (Math_pow pow_approx (of_Z 1 + retirement_monthlyReturn d)%js64
         (monthsToRetirement d)) = true ->
  geb (retirement_annuityFactor pow_approx d) (of_Z 0) = true.
Proof.
  intros Fr Pr Vp Gp. unfold retirement_annuityFactor.
  apply div_nonpos_neg; trivial.
  apply sub_le_0; trivial; reflexivity.
Qed.

End Contributions64.

(** C8, as the code has it: totalAtRetirement is futureCurrentSavings +
    futureContributions, one rounded addition, and futureContributions is
    monthlyContribution × ((power − 1) / monthlyReturn) with power =
    Math.pow(1 + monthlyReturn, months).  Whenever futureContributions is ≥ 0
    and futureCurrentSavings is a finite number, totalAtRetirement ≥
    futureCurrentSavings: a rounded sum is not below a term when the other is
    ≥ 0.  futureContributions is ≥ 0 when the annuity factor is, other than
    for 0 × Infinity; and the factor is ≥ 0 when the monthly rate is finite
    and positive and the power is ≥ 1, or finite and negative and the power is
    ≤ 1.  When the monthly rate is +0 or −0 (expectedReturn 0, or one that
    underflows) futureContributions is [NaN], and then so is the total, and
    totalAtRetirement ≥ futureCurrentSavings is false. *)
Theorem C8_total_at_least_savings :
  forall (pow_approx : JS64.float64 -> JS64.float64 -> JS64.float64)
         (d : FinancialPlanning64.Retirement.Data),
    Spec64.lt (FinancialPlanning64.Retirement.currentAge d)
              (FinancialPlanning64.Retirement.retirementAge d) ->
    Spec64.le (JS64.of_Z 0)
              (FinancialPlanning64.Retirement.monthlyContribution d) ->
    let savings := FinancialPlanning64.futureCurrentSavings pow_approx d in
    let rate := FinancialPlanning64.retirement_monthlyReturn d in
    let power :=
      JS64.Math_pow pow_approx (JS64.of_Z 1 + rate)%js64
        (FinancialPlanning64.monthsToRetirement d) in
    let factor := FinancialPlanning64.retirement_annuityFactor pow_approx d in
    let contributions :=
      FinancialPlanning64.retirement_futureContributions pow_approx d in
    let total :=
      FinancialPlanning64.Retirement.totalAtRetirement
        (FinancialPlanning64.calculateRetirement pow_approx d) in
    total = (savings + contributions)%js64
    /\ contributions
       = (FinancialPlanning64.Retirement.monthlyContribution d * factor)%js64
    /\ factor = ((power - JS64.of_Z 1) / rate)%js64
    /\ (JS64.is_binary64 savings = true -> JS64.is_finite savings = true ->
        Spec64.le (JS64.of_Z 0) contributions ->
        Spec64.le savings total)
    /\ (Spec64.le (JS64.of_Z 0) factor ->
        JS64.is_zero (FinancialPlanning64.Retirement.monthlyContribution d)
        && JS64.is_infinite factor = false ->
        JS64.is_infinite (FinancialPlanning64.Retirement.monthlyContribution d)
        && JS64.is_zero factor = false ->
        Spec64.le (JS64.of_Z 0) contributions)
    /\ (JS64.is_finite rate = true -> Spec64.lt (JS64.of_Z 0) rate ->
        JS64.is_binary64 power = true -> Spec64.le (JS64.of_Z 1) power ->
        Spec64.le (JS64.of_Z 0) factor)
    /\ (JS64.is_finite rate = true -> Spec64.lt rate (JS64.of_Z 0) ->
        JS64.is_binary64 power = true -> Spec64.le power (JS64.of_Z 1) ->
        Spec64.le (JS64.of_Z 0) factor)
    /\ (JS64.is_zero (FinancialPlanning64.Retirement.expectedReturn d) = true ->
        JS64.is_zero rate = true)
    /\ (JS64.is_zero rate = true ->
        (forall y, pow_approx (JS64.of_Z 1) y = JS64.of_Z 1) ->
        JS64.is_nan contributions = true)
    /\ (JS64.is_nan contributions = true ->
        JS64.is_nan total = true /\ ~ Spec64.le savings total).
Proof.
  intros pa d Hages Hm savings rate power factor contributions total.
  split; [ reflexivity | ]. split; [ reflexivity | ].
  split; [ reflexivity | ].
  split.
  { intros Vs Fs Hc. unfold Spec64.le in *.
    subst total. rewrite totalAtRetirement_unfold.
    now apply add_nonneg_ge. }
  split.
  { intros Hf Z1 Z2. unfold Spec64.le in *. now apply mul_nonneg. }
  split.
  { intros Fr Pr Vp Gp. unfold Spec64.le, Spec64.lt in *.
    apply annuityFactor_nonneg_up; trivial.
    unfold JS64.gtb. unfold JS64.ltb in Pr. rewrite SFcompare_antisym.
    destruct (SpecFloat.SFcompare _ _) as [[| |]|]; try discriminate.
    reflexivity. }
  split.
  { intros Fr Pr Vp Gp. unfold Spec64.le, Spec64.lt in *.
    now apply annuityFactor_nonneg_down. }
  split; [ apply monthlyReturn_zero | ].
  split; [ apply futureContributions_zero_rate | ].
  intros Hn.
  assert (T : JS64.is_nan total = true).
  { subst total. rewrite totalAtRetirement_unfold. now apply add_nan_r. }
  split; [ exact T | ].
  unfold Spec64.le, JS64.geb. intros H.
  destruct total; try discriminate T.
  destruct savings; discriminate H.
Qed.

(** C8 at the initial state (ages 30 and 65, 1000 a month at 7 percent): the
    total is at least the future savings.  With the rate set to 0 the
    contributions are [NaN] and it is not. *)
Lemma C8_total_at_least_savings_witness :
  (let d :=
     FinancialPlanning64.retirementData_with
       (JS64.of_Z 65) (JS64.of_Z 1000) (JS64.of_Z 7) in
   Spec64.le
     (FinancialPlanning64.futureCurrentSavings JS64.pow_by_products d)
     (FinancialPlanning64.Retirement.totalAtRetirement
        (FinancialPlanning64.calculateRetirement JS64.pow_by_products d)))
  /\
  (let d :=
     FinancialPlanning64.retirementData_with
       (JS64.of_Z 65) (JS64.of_Z 1000) (JS64.of_Z 0) in
   JS64.is_nan
     (FinancialPlanning64.retirement_futureContributions
        JS64.pow_by_products d) = true
   /\ ~ Spec64.le
          (FinancialPlanning64.futureCurrentSavings JS64.pow_by_products d)
          (FinancialPlanning64.Retirement.totalAtRetirement
             (FinancialPlanning64.calculateRetirement
                JS64.pow_by_products d))).
Proof.
  split.
  - pose proof (C8_total_at_least_savings JS64.pow_by_products
                  (FinancialPlanning64.retirementData_with
                     (JS64.of_Z 65) (JS64.of_Z 1000) (JS64.of_Z 7))
                  eq_refl eq_refl) as H.
    cbv zeta in H. destruct H as (_ & _ & _ & Hsum & Hmul & Hup & _).
    apply Hsum.
    + vm_compute. reflexivity.
    + vm_compute. reflexivity.
    + apply Hmul.
      * apply Hup; vm_compute; reflexivity.
      * vm_compute. reflexivity.
      * vm_compute. reflexivity.
  - pose proof (C8_total_at_least_savings JS64.pow_by_products
                  (FinancialPlanning64.retirementData_with
                     (JS64.of_Z 65) (JS64.of_Z 1000) (JS64.of_Z 0))
                  eq_refl eq_refl) as H.
    cbv zeta in H.
    destruct H as (_ & _ & _ & _ & _ & _ & _ & Hz & Hr & Hnan).
    assert (N := Hr (Hz eq_refl) (fun y => eq_refl)).
    split; [ exact N | exact (proj2 (Hnan N)) ].
Defined.

(** At expectedReturn = 0 the comparison totalAtRetirement ≥
    futureCurrentSavings is false (the total is [NaN]); at expectedReturn =
    −3600 over one year the annuity term is −1365000 and the total, −3115000,
    is below the future savings, −1750000. *)
Lemma C8_zero_rate_counterexample :
  (let d :=
     FinancialPlanning64.retirementData_with
       (JS64.of_Z 65) (JS64.of_Z 1000) (JS64.of_Z 0) in
   let total :=
     FinancialPlanning64.Retirement.totalAtRetirement
       (FinancialPlanning64.calculateRetirement JS64.pow_by_products d) in
   Spec64.lt (FinancialPlanning64.Retirement.currentAge d)
             (FinancialPlanning64.Retirement.retirementAge d)
   /\ Spec64.le (JS64.of_Z 0)
        (FinancialPlanning64.Retirement.monthlyContribution d)
   /\ FinancialPlanning64.futureCurrentSavings JS64.pow_by_products d
      = JS64.of_Z 50000
   /\ total = JS64.nan
   /\ ~ Spec64.le
          (FinancialPlanning64.futureCurrentSavings JS64.pow_by_products d)
          total)
  /\
  (let d :=
     FinancialPlanning64.retirementData_with
       (JS64.of_Z 31) (JS64.of_Z 1000) (JS64.of_Z (-3600)) in
   let total :=
     FinancialPlanning64.Retirement.totalAtRetirement
       (FinancialPlanning64.calculateRetirement JS64.pow_by_products d) in
   Spec64.lt (FinancialPlanning64.Retirement.currentAge d)
             (FinancialPlanning64.Retirement.retirementAge d)
   /\ Spec64.le (JS64.of_Z 0)
        (FinancialPlanning64.Retirement.monthlyContribution d)
   /\ FinancialPlanning64.futureCurrentSavings JS64.pow_by_products d
      = JS64.of_Z (-1750000)
   /\ total = JS64.of_Z (-3115000)
   /\ ~ Spec64.le
          (FinancialPlanning64.futureCurrentSavings JS64.pow_by_products d)
          total).
Proof.
  cbv zeta. unfold Spec64.le, Spec64.lt.
  repeat split; try (vm_compute; reflexivity); vm_compute; discriminate.
Qed.

(** * Further properties over binary64 *)

(** ** Allocations of a portfolio worth nothing *)

(** X5: when the total value is +0 or −0 (in particular a portfolio of
    holdings with 0 shares), no allocation percentage is a finite number: a
    holding whose value is a zero (or [NaN]) gets [NaN], 0/0, and any other
    holding the infinity whose sign is the sign of its value times the sign
    of the zero. *)
Theorem X5_allocations_of_zero_total :
  forall (holdings : list PortfolioAnalyzer64.Holding) (sz : bool),
    PortfolioAnalyzer64.totalValue
      (PortfolioAnalyzer64.calculateMetrics holdings)
    = SpecFloat.S754_zero sz ->
    Forall (fun row =>
              PortfolioAnalyzer64.allocation row
              = match PortfolioAnalyzer64.value row with
                | SpecFloat.S754_zero _ | SpecFloat.S754_nan => JS64.nan
                | SpecFloat.S754_infinity s | SpecFloat.S754_finite s _ _ =>
                    SpecFloat.S754_infinity (xorb s sz)
                end)
           (PortfolioAnalyzer64.getPortfolioAllocation holdings).
Proof.
  intros holdings sz HT. unfold PortfolioAnalyzer64.getPortfolioAllocation.
  rewrite HT. apply Forall_map. apply Forall_forall. intros h _.
  cbn [PortfolioAnalyzer64.allocation PortfolioAnalyzer64.value].
  rewrite div_by_zero, of_Z_100.
  destruct (PortfolioAnalyzer64.shares h * PortfolioAnalyzer64.currentPrice h)%js64;
    simpl; try reflexivity; now rewrite xorb_false_r.
Qed.

(** X5 on a single holding with 0 shares: its allocation is [NaN]. *)
Lemma X5_allocations_of_zero_total_witness :
  Forall (fun row => PortfolioAnalyzer64.allocation row = JS64.nan)
    (PortfolioAnalyzer64.getPortfolioAllocation
       PortfolioAnalyzer64.worthless_holdings).
Proof.
  pose proof (X5_allocations_of_zero_total
                PortfolioAnalyzer64.worthless_holdings false eq_refl) as H.
  inversion H as [| row rest Hrow Hrest]; subst.
  constructor; [ exact Hrow | constructor ].
Defined.

(** ** Retiring at the current age *)

Section RetiringNow.

Import SpecFloat JS64 FinancialPlanning64.

Variable pow_approx : float64 -> float64 -> float64.

(** A finite number minus itself is +0. *)
Lemma sub_diag (a : float64) : is_finite a = true -> sub a a = S754_zero false.
Proof.
  destruct a as [s| | |s m e]; try discriminate; intros _.
  - now destruct s.
  - unfold sub. cbn [SFsub]. now rewrite Z.sub_diag.
Qed.

Lemma monthsToRetirement_now (d : Retirement.Data) :
  is_finite (Retirement.currentAge d) = true ->
  Retirement.retirementAge d = Retirement.currentAge d ->
  yearsToRetirement d = S754_zero false
  /\ monthsToRetirement d = S754_zero false.
Proof.
  intros Fa E. unfold monthsToRetirement, yearsToRetirement.
  rewrite E, sub_diag by trivial. split; reflexivity.
Qed.

End RetiringNow.

(** X17: retiring at the current age.  With equal finite ages the years and
    months to retirement are +0 and both powers are 1, so futureCurrentSavings
    is currentSavings (multiplying by 1 is exact); with a finite
    monthlyContribution and a finite monthly rate other than ±0
    futureContributions is a zero, and totalAtRetirement is currentSavings
    when that is not itself a zero. *)
Theorem X17_retiring_now_keeps_savings :
  forall (pow_approx : JS64.float64 -> JS64.float64 -> JS64.float64)
         (d : FinancialPlanning64.Retirement.Data),
    JS64.is_finite (FinancialPlanning64.Retirement.currentAge d) = true ->
    FinancialPlanning64.Retirement.retirementAge d
    = FinancialPlanning64.Retirement.currentAge d ->
    JS64.is_binary64 (FinancialPlanning64.Retirement.currentSavings d) = true ->
    JS64.is_finite (FinancialPlanning64.Retirement.monthlyContribution d)
    = true ->
    JS64.is_finite (FinancialPlanning64.retirement_monthlyReturn d) = true ->
    JS64.is_zero (FinancialPlanning64.retirement_monthlyReturn d) = false ->
    FinancialPlanning64.monthsToRetirement d = JS64.pos_zero
    /\ FinancialPlanning64.futureCurrentSavings pow_approx d
       = FinancialPlanning64.Retirement.currentSavings d
    /\ JS64.is_zero
         (FinancialPlanning64.retirement_futureContributions pow_approx d)
       = true
    /\ (JS64.is_zero (FinancialPlanning64.Retirement.currentSavings d) = false ->
        FinancialPlanning64.Retirement.totalAtRetirement
          (FinancialPlanning64.calculateRetirement pow_approx d)
        = FinancialPlanning64.Retirement.currentSavings d).
Proof.
  intros pa d Fa E Vs Fm Fr Zr.
  destruct (monthsToRetirement_now d Fa E) as [Y M].
  assert (S : FinancialPlanning64.futureCurrentSavings pa d
              = FinancialPlanning64.Retirement.currentSavings d).
  { unfold FinancialPlanning64.futureCurrentSavings. rewrite Y.
    change (JS64.Math_pow pa _ (SpecFloat.S754_zero false))
      with (JS64.of_Z 1).
    now apply mul_1_r. }
  assert (C : JS64.is_zero
                (FinancialPlanning64.retirement_futureContributions pa d)
              = true).
  { unfold FinancialPlanning64.retirement_futureContributions,
      FinancialPlanning64.retirement_annuityFactor.
    rewrite M.
    change (JS64.Math_pow pa _ (SpecFloat.S754_zero false))
      with (JS64.of_Z 1).
    change (JS64.of_Z 1 - JS64.of_Z 1)%js64 with (SpecFloat.S754_zero false).
    destruct (FinancialPlanning64.retirement_monthlyReturn d);
      try discriminate.
    destruct (FinancialPlanning64.Retirement.monthlyContribution d);
      try discriminate; reflexivity. }
  split; [ exact M | ]. split; [ exact S | ]. split; [ exact C | ].
  intros Zs. rewrite totalAtRetirement_unfold, S.
  destruct (FinancialPlanning64.retirement_futureContributions pa d);
    try discriminate.
  destruct (FinancialPlanning64.Retirement.currentSavings d);
    try discriminate; reflexivity.
Qed.

(** X17 at the initial state with the retirement age set to 30. *)
Lemma X17_retiring_now_keeps_savings_witness :
  FinancialPlanning64.Retirement.totalAtRetirement
    (FinancialPlanning64.calculateRetirement JS64.pow_by_products
       (FinancialPlanning64.retirementData_with
          (JS64.of_Z 30) (JS64.of_Z 1000) (JS64.of_Z 7)))
  = JS64.of_Z 50000.
Proof.
  exact (proj2 (proj2 (proj2
    (X17_retiring_now_keeps_savings JS64.pow_by_products
       (FinancialPlanning64.retirementData_with
          (JS64.of_Z 30) (JS64.of_Z 1000) (JS64.of_Z 7))
       eq_refl eq_refl eq_refl eq_refl eq_refl eq_refl))) eq_refl).
Defined.

(** ** The initial holdings in binary64 *)


(** * Further properties over exact numbers *)

(** ** Removing a holding *)

Section RemoveHolding.

Import PortfolioAnalyzer.

Lemma int_inj (a b : Z) : int a = int b -> a = b.
Proof.
  intros H.
  assert (Hq : Q2Qc (inject_Z a) = Q2Qc (inject_Z b))
    by (unfold int in H; congruence).
  apply (f_equal this) in Hq. rewrite !this_int_eq in Hq.
  unfold inject_Z in Hq. congruence.
Qed.

Lemma eqb_refl_Fin (q : Qc) : eqb (Fin q) (Fin q) = true.
Proof. simpl. now apply Qeq_bool_iff. Qed.

Lemma eqb_int (a b : Z) : eqb (int a) (int b) = (a =? b)%Z.
Proof.
  destruct (Z.eqb_spec a b) as [-> | Hne].
  - apply eqb_refl_Fin.
  - destruct (eqb (int a) (int b)) eqn:E; [ | reflexivity ].
    apply eqb_eq, int_inj in E. contradiction.
Qed.

(** When no position from [k] on is the index, the filter keeps everything. *)
Lemma filter_index_all (index : number) (l : list Holding) :
  forall k : nat,
    (forall i : nat, (i < List.length l)%nat ->
                     index <> int (Z.of_nat (k + i))) ->
    filter_index (fun i => negb (eqb i index)) k l = l.
Proof.
  induction l as [| x t IH]; intros k H; [ reflexivity | ].
  cbn [filter_index].
  assert (E : eqb (int (Z.of_nat k)) index = false).
  { destruct (eqb (int (Z.of_nat k)) index) eqn:E; [ | reflexivity ].
    apply eqb_eq in E. exfalso. apply (H 0%nat); [ simpl; lia | ].
    now rewrite Nat.add_0_r. }
  rewrite E. cbn [negb]. f_equal. apply IH.
  intros i Hi. replace (S k + i)%nat with (k + S i)%nat by lia.
  apply H. simpl. lia.
Qed.

(** The position [k + j] of a list whose first element has position [k]. *)
Lemma filter_index_at (l : list Holding) :
  forall k j : nat,
    (j < List.length l)%nat ->
    filter_index (fun i => negb (eqb i (int (Z.of_nat (k + j))))) k l
    = firstn j l ++ skipn (S j) l.
Proof.
  induction l as [| x t IH]; intros k j Hj; [ simpl in Hj; lia | ].
  cbn [filter_index]. rewrite eqb_int.
  destruct j as [| j].
  - rewrite Nat.add_0_r, Z.eqb_refl. cbn [negb firstn skipn app].
    apply filter_index_all. intros i _ H. apply int_inj in H. lia.
  - replace (Z.of_nat k =? Z.of_nat (k + S j))%Z with false
      by (symmetry; apply Z.eqb_neq; lia).
    cbn [negb firstn skipn app]. f_equal.
    replace (k + S j)%nat with (S k + j)%nat by lia.
    apply IH. simpl in Hj. lia.
Qed.

End RemoveHolding.

(** X1: [removeHolding] at a position [i] of the list removes exactly the
    holding at that position: the holdings before and after it stay, in
    order, and the list is one shorter. *)
Theorem X1_removeHolding_at_position :
  forall (hs : list PortfolioAnalyzer.Holding) (i : nat),
    (i < List.length hs)%nat ->
    PortfolioAnalyzer.removeHolding hs (int (Z.of_nat i))
    = firstn i hs ++ skipn (S i) hs
    /\ S (List.length
            (PortfolioAnalyzer.removeHolding hs (int (Z.of_nat i))))
       = List.length hs.
Proof.
  intros hs i Hi.
  assert (E : PortfolioAnalyzer.removeHolding hs (int (Z.of_nat i))
              = firstn i hs ++ skipn (S i) hs)
    by (apply (filter_index_at hs 0 i Hi)).
  split; [ exact E | ].
  rewrite E, length_app, length_firstn, length_skipn. lia.
Qed.

(** X1 on the initial holdings: removing position 1 leaves AAPL and GOOGL. *)
Lemma X1_removeHolding_at_position_witness :
  (1 < List.length PortfolioAnalyzer.initial_holdings)%nat
  /\ PortfolioAnalyzer.removeHolding PortfolioAnalyzer.initial_holdings
       (int (Z.of_nat 1))
     = firstn 1 PortfolioAnalyzer.initial_holdings
       ++ skipn 2 PortfolioAnalyzer.initial_holdings.
Proof.
  assert (H : (1 < List.length PortfolioAnalyzer.initial_holdings)%nat)
    by (simpl; lia).
  split; [ exact H | ].
  exact (proj1 (X1_removeHolding_at_position
                  PortfolioAnalyzer.initial_holdings 1 H)).
Defined.

(** X2: an index that is not the number of a position of the list (a
    negative or fractional number, [NaN], an infinity, or a number from the
    length on) removes nothing. *)
Theorem X2_removeHolding_not_a_position :
  forall (hs : list PortfolioAnalyzer.Holding) (index : number),
    (forall i : nat, (i < List.length hs)%nat -> index <> int (Z.of_nat i)) ->
    PortfolioAnalyzer.removeHolding hs index = hs.
Proof.
  intros hs index H. apply filter_index_all. exact H.
Qed.

(** X2 on the initial holdings with the index [NaN]. *)
Lemma X2_removeHolding_not_a_position_witness :
  PortfolioAnalyzer.removeHolding PortfolioAnalyzer.initial_holdings NaN
  = PortfolioAnalyzer.initial_holdings.
Proof.
  apply X2_removeHolding_not_a_position.
  intros i _ H. discriminate H.
Defined.

Section RemovalAndTotals.

Import PortfolioAnalyzer.

(** Removing the element that follows [l1]. *)
Lemma removeHolding_split (l1 l2 : list Holding) (h : Holding) :
  removeHolding (l1 ++ h :: l2) (int (Z.of_nat (List.length l1))) = l1 ++ l2.
Proof.
  unfold removeHolding.
  etransitivity;
    [ apply (filter_index_at (l1 ++ h :: l2) 0 (List.length l1));
      rewrite length_app; simpl; lia | ].
  rewrite firstn_app, Nat.sub_diag, firstn_all. cbn [firstn].
  rewrite app_nil_r, skipn_app.
  rewrite (skipn_all2 l1) by lia.
  replace (S (List.length l1) - List.length l1)%nat with 1%nat by lia.
  reflexivity.
Qed.

End RemovalAndTotals.

(** ** The diversification panel *)

(** X9: the diversification label depends on the number of holdings only:
    "Low" for at most one, "Medium" for two or three, "High" from four on;
    the "Improve Diversification" recommendation is shown for at most two
    holdings. *)
Theorem X9_diversification_by_count :
  forall hs : list PortfolioAnalyzer.Holding,
    let m := PortfolioAnalyzer.calculateMetrics hs in
    PortfolioAnalyzer.diversificationLabel m =
      (if (List.length hs <=? 1)%nat then "Low"
       else if (List.length hs <=? 3)%nat then "Medium" else "High")%string
    /\ PortfolioAnalyzer.showsImproveDiversification m
       = (List.length hs <=? 2)%nat.
Proof.
  intros hs m. subst m.
  unfold PortfolioAnalyzer.diversificationLabel,
    PortfolioAnalyzer.showsImproveDiversification, ltb.
  rewrite diversification_as_int.
  set (n := List.length hs).
  assert (G : forall t : Z,
             (t <= 100)%Z ->
             gtb (int t) (if (Z.of_nat n * 20 <? 100)%Z
                          then int (Z.of_nat n * 20) else int 100)
             = (Z.of_nat n * 20 <? t)%Z).
  { intros t Ht. destruct (Z.of_nat n * 20 <? 100)%Z eqn:E;
      rewrite gtb_int; [ reflexivity | ].
    apply Z.ltb_ge in E. symmetry.
    destruct (Z.ltb_spec (Z.of_nat n * 20) t); destruct (Z.ltb_spec 100 t);
      try reflexivity; lia. }
  rewrite !G by lia.
  split.
  - destruct (Z.ltb_spec (Z.of_nat n * 20) 40), (Nat.leb_spec n 1);
      try lia; try reflexivity.
    destruct (Z.ltb_spec (Z.of_nat n * 20) 80), (Nat.leb_spec n 3);
      try lia; reflexivity.
  - destruct (Z.ltb_spec (Z.of_nat n * 20) 60), (Nat.leb_spec n 2);
      try lia; reflexivity.
Qed.

(** ** Adding a holding *)

Section AddHoldingFacts.

Import PortfolioAnalyzer.

Variable parseFloat : string -> number.
Variable toUpperCase : string -> string.

(** Every price of the mock table is truthy, so [||] never falls through for
    a listed key. *)
Lemma listed_price (key : string) (v fallback : number) :
  lookup key mockCurrentPrices = Some v -> or_else (Some v) fallback = v.
Proof.
  unfold mockCurrentPrices. cbn [lookup].
  repeat (destruct (String.eqb _ key);
          [ intros E; injection E as <-; reflexivity | ]).
  discriminate.
Qed.

(** The three strings of the form are all non-empty. *)
Lemma addHolding_complete (st : State) :
  is_empty (NewHolding.symbol (newHolding st))
  || is_empty (NewHolding.shares (newHolding st))
  || is_empty (NewHolding.avgPrice (newHolding st)) = false ->
  exists h : Holding,
    holdings (addHolding parseFloat toUpperCase st) = holdings st ++ [h]
    /\ symbol h = toUpperCase (NewHolding.symbol (newHolding st))
    /\ shares h = parseFloat (NewHolding.shares (newHolding st))
    /\ avgPrice h = parseFloat (NewHolding.avgPrice (newHolding st))
    /\ currentPrice h =
         or_else (lookup (toUpperCase (NewHolding.symbol (newHolding st)))
                         mockCurrentPrices)
                 (parseFloat (NewHolding.avgPrice (newHolding st))).
Proof.
  intros E. unfold addHolding. rewrite E. cbn [holdings].
  eexists. split; [ reflexivity | ]. repeat split.
Qed.

End AddHoldingFacts.

(** X10: [addHolding] with an incomplete form (an empty symbol, shares or
    average price string) changes nothing: the holdings, the form and the
    open dialog stay as they are. *)
Theorem X10_addHolding_incomplete_form :
  forall (parseFloat : string -> number) (toUpperCase : string -> string)
         (st : PortfolioAnalyzer.State),
    PortfolioAnalyzer.NewHolding.symbol (PortfolioAnalyzer.newHolding st)
      = ""%string
    \/ PortfolioAnalyzer.NewHolding.shares (PortfolioAnalyzer.newHolding st)
      = ""%string
    \/ PortfolioAnalyzer.NewHolding.avgPrice (PortfolioAnalyzer.newHolding st)
      = ""%string ->
    PortfolioAnalyzer.addHolding parseFloat toUpperCase st = st.
Proof.
  intros pf up st H. unfold PortfolioAnalyzer.addHolding.
  destruct H as [-> | [-> | ->]]; cbn [PortfolioAnalyzer.is_empty];
    rewrite ?orb_true_r; reflexivity.
Qed.

(** X10 on the initial state with the dialog open and nothing typed. *)
Lemma X10_addHolding_incomplete_form_witness :
  let st := {| PortfolioAnalyzer.holdings := PortfolioAnalyzer.initial_holdings;
               PortfolioAnalyzer.newHolding :=
                 {| PortfolioAnalyzer.NewHolding.symbol := "";
                    PortfolioAnalyzer.NewHolding.shares := "";
                    PortfolioAnalyzer.NewHolding.avgPrice := "" |};
               PortfolioAnalyzer.showAddForm := true |} in
  PortfolioAnalyzer.addHolding (fun _ => NaN) (fun s => s) st = st.
Proof.
  cbv zeta. apply X10_addHolding_incomplete_form. left. reflexivity.
Defined.

(** X11: [addHolding] with a complete form appends exactly one holding at the
    end, clears the form and closes the dialog; the diversificationScore of
    the new holdings is the old one plus 20, capped at 100. *)
Theorem X11_addHolding_appends_one :
  forall (parseFloat : string -> number) (toUpperCase : string -> string)
         (st : PortfolioAnalyzer.State),
    PortfolioAnalyzer.NewHolding.symbol (PortfolioAnalyzer.newHolding st)
      <> ""%string ->
    PortfolioAnalyzer.NewHolding.shares (PortfolioAnalyzer.newHolding st)
      <> ""%string ->
    PortfolioAnalyzer.NewHolding.avgPrice (PortfolioAnalyzer.newHolding st)
      <> ""%string ->
    let st' := PortfolioAnalyzer.addHolding parseFloat toUpperCase st in
    firstn (List.length (PortfolioAnalyzer.holdings st))
           (PortfolioAnalyzer.holdings st') = PortfolioAnalyzer.holdings st
    /\ List.length (PortfolioAnalyzer.holdings st')
       = S (List.length (PortfolioAnalyzer.holdings st))
    /\ PortfolioAnalyzer.newHolding st' =
         {| PortfolioAnalyzer.NewHolding.symbol := "";
            PortfolioAnalyzer.NewHolding.shares := "";
            PortfolioAnalyzer.NewHolding.avgPrice := "" |}
    /\ PortfolioAnalyzer.showAddForm st' = false
    /\ PortfolioAnalyzer.diversificationScore
         (PortfolioAnalyzer.calculateMetrics (PortfolioAnalyzer.holdings st'))
       = Math_min (int 100)
           (PortfolioAnalyzer.diversificationScore
              (PortfolioAnalyzer.calculateMetrics
                 (PortfolioAnalyzer.holdings st)) + int 20)%js.
Proof.
  intros pf up st Hs Hn Ha st'.
  assert (E : PortfolioAnalyzer.is_empty
                (PortfolioAnalyzer.NewHolding.symbol
                   (PortfolioAnalyzer.newHolding st))
              || PortfolioAnalyzer.is_empty
                   (PortfolioAnalyzer.NewHolding.shares
                      (PortfolioAnalyzer.newHolding st))
              || PortfolioAnalyzer.is_empty
                   (PortfolioAnalyzer.NewHolding.avgPrice
                      (PortfolioAnalyzer.newHolding st)) = false).
  { destruct (PortfolioAnalyzer.NewHolding.symbol _); [ contradiction | ].
    destruct (PortfolioAnalyzer.NewHolding.shares _); [ contradiction | ].
    destruct (PortfolioAnalyzer.NewHolding.avgPrice _); [ contradiction | ].
    reflexivity. }
  destruct (addHolding_complete pf up st E) as (h & Hh & _).
  fold st' in Hh.
  assert (Hst : PortfolioAnalyzer.newHolding st' =
                {| PortfolioAnalyzer.NewHolding.symbol := "";
                   PortfolioAnalyzer.NewHolding.shares := "";
                   PortfolioAnalyzer.NewHolding.avgPrice := "" |}
                /\ PortfolioAnalyzer.showAddForm st' = false).
  { subst st'. unfold PortfolioAnalyzer.addHolding. rewrite E.
    split; reflexivity. }
  destruct Hst as [Hform Hshow].
  split; [ | split; [ | split; [ exact Hform | split; [ exact Hshow | ] ] ] ].
  - rewrite Hh, firstn_app, Nat.sub_diag, firstn_all. cbn [firstn].
    apply app_nil_r.
  - rewrite Hh, length_app. simpl. lia.
  - rewrite !diversification_as_int, Hh, length_app. cbn [List.length].
    set (n := Z.of_nat (List.length (PortfolioAnalyzer.holdings st))).
    replace (Z.of_nat (List.length (PortfolioAnalyzer.holdings st) + 1))
      with (n + 1)%Z by (subst n; lia).
    assert (Hn0 : (0 <= n)%Z) by (subst n; lia).
    assert (A : forall a b : Z, (int a + int b)%js = int (a + b)).
    { intros a b. apply Fin_ext. rewrite this_add, !this_int.
      now rewrite inject_Z_plus. }
    assert (M : forall a : Z,
               Math_min (int 100) (int a)
               = if (a <? 100)%Z then int a else int 100).
    { intros a. unfold Math_min.
      change (match int a with
              | NaN => NaN
              | _ => if gtb (int 100) (int a) then int a else int 100
              end)
        with (if gtb (int 100) (int a) then int a else int 100).
      now rewrite gtb_int. }
    destruct (Z.ltb_spec (n * 20) 100), (Z.ltb_spec ((n + 1) * 20) 100);
      rewrite A, M; try lia.
    + replace (n * 20 + 20)%Z with ((n + 1) * 20)%Z by lia.
      destruct (Z.ltb_spec ((n + 1) * 20) 100); [ reflexivity | lia ].
    + destruct (Z.ltb_spec (n * 20 + 20) 100); [ lia | reflexivity ].
    + reflexivity.
Qed.

(** X11 on the form "TSLA", "10", "200" over the three initial holdings. *)
Lemma X11_addHolding_appends_one_witness :
  List.length
    (PortfolioAnalyzer.holdings
       (PortfolioAnalyzer.addHolding PortfolioAnalyzer.sample_parseFloat
          PortfolioAnalyzer.sample_toUpperCase
          PortfolioAnalyzer.listed_form_state))
  = S (List.length
         (PortfolioAnalyzer.holdings PortfolioAnalyzer.listed_form_state)).
Proof.
  refine (proj1 (proj2
    (X11_addHolding_appends_one PortfolioAnalyzer.sample_parseFloat
       PortfolioAnalyzer.sample_toUpperCase
       PortfolioAnalyzer.listed_form_state _ _ _))); discriminate.
Defined.

Section AddHoldingPrice.

Import PortfolioAnalyzer.

Lemma complete_form (st : State) :
  NewHolding.symbol (newHolding st) <> ""%string ->
  NewHolding.shares (newHolding st) <> ""%string ->
  NewHolding.avgPrice (newHolding st) <> ""%string ->
  is_empty (NewHolding.symbol (newHolding st))
  || is_empty (NewHolding.shares (newHolding st))
  || is_empty (NewHolding.avgPrice (newHolding st)) = false.
Proof.
  intros Hs Hn Ha.
  destruct (NewHolding.symbol _); [ contradiction | ].
  destruct (NewHolding.shares _); [ contradiction | ].
  destruct (NewHolding.avgPrice _); [ contradiction | ].
  reflexivity.
Qed.

End AddHoldingPrice.

(** X12: when the upper-cased symbol is a key of the mock price table, the
    new holding is priced from the table, whatever average price was typed. *)
Theorem X12_addHolding_listed_ticker :
  forall (parseFloat : string -> number) (toUpperCase : string -> string)
         (st : PortfolioAnalyzer.State) (v : number),
    PortfolioAnalyzer.NewHolding.symbol (PortfolioAnalyzer.newHolding st)
      <> ""%string ->
    PortfolioAnalyzer.NewHolding.shares (PortfolioAnalyzer.newHolding st)
      <> ""%string ->
    PortfolioAnalyzer.NewHolding.avgPrice (PortfolioAnalyzer.newHolding st)
      <> ""%string ->
    PortfolioAnalyzer.lookup
      (toUpperCase (PortfolioAnalyzer.NewHolding.symbol
                      (PortfolioAnalyzer.newHolding st)))
      PortfolioAnalyzer.mockCurrentPrices = Some v ->
    PortfolioAnalyzer.holdings
      (PortfolioAnalyzer.addHolding parseFloat toUpperCase st)
    = PortfolioAnalyzer.holdings st ++
      [ {| PortfolioAnalyzer.symbol :=
             toUpperCase (PortfolioAnalyzer.NewHolding.symbol
                            (PortfolioAnalyzer.newHolding st));
           PortfolioAnalyzer.shares :=
             parseFloat (PortfolioAnalyzer.NewHolding.shares
                           (PortfolioAnalyzer.newHolding st));
           PortfolioAnalyzer.avgPrice :=
             parseFloat (PortfolioAnalyzer.NewHolding.avgPrice
                           (PortfolioAnalyzer.newHolding st));
           PortfolioAnalyzer.currentPrice := v |} ].
Proof.
  intros pf up st v Hs Hn Ha Hl.
  unfold PortfolioAnalyzer.addHolding.
  rewrite (complete_form st Hs Hn Ha). cbn [PortfolioAnalyzer.holdings].
  rewrite Hl, (listed_price _ v _ Hl). reflexivity.
Qed.

(** X12 on the form "TSLA", "10", "200": priced at 238.45, not at 200. *)
Lemma X12_addHolding_listed_ticker_witness :
  PortfolioAnalyzer.holdings
    (PortfolioAnalyzer.addHolding PortfolioAnalyzer.sample_parseFloat
       PortfolioAnalyzer.sample_toUpperCase
       PortfolioAnalyzer.listed_form_state)
  = PortfolioAnalyzer.initial_holdings ++
    [ {| PortfolioAnalyzer.symbol := "TSLA";
         PortfolioAnalyzer.shares := int 10;
         PortfolioAnalyzer.avgPrice := int 200;
         PortfolioAnalyzer.currentPrice := frac 23845 100 |} ].
Proof.
  refine (X12_addHolding_listed_ticker PortfolioAnalyzer.sample_parseFloat
            PortfolioAnalyzer.sample_toUpperCase
            PortfolioAnalyzer.listed_form_state (frac 23845 100) _ _ _ _);
    try discriminate; reflexivity.
Defined.

(** X13: when the upper-cased symbol is not a key of the mock price table,
    the new holding is priced at the typed average price. *)
Theorem X13_addHolding_unlisted_ticker :
  forall (parseFloat : string -> number) (toUpperCase : string -> string)
         (st : PortfolioAnalyzer.State),
    PortfolioAnalyzer.NewHolding.symbol (PortfolioAnalyzer.newHolding st)
      <> ""%string ->
    PortfolioAnalyzer.NewHolding.shares (PortfolioAnalyzer.newHolding st)
      <> ""%string ->
    PortfolioAnalyzer.NewHolding.avgPrice (PortfolioAnalyzer.newHolding st)
      <> ""%string ->
    PortfolioAnalyzer.lookup
      (toUpperCase (PortfolioAnalyzer.NewHolding.symbol
                      (PortfolioAnalyzer.newHolding st)))
      PortfolioAnalyzer.mockCurrentPrices = None ->
    PortfolioAnalyzer.holdings
      (PortfolioAnalyzer.addHolding parseFloat toUpperCase st)
    = PortfolioAnalyzer.holdings st ++
      [ {| PortfolioAnalyzer.symbol :=
             toUpperCase (PortfolioAnalyzer.NewHolding.symbol
                            (PortfolioAnalyzer.newHolding st));
           PortfolioAnalyzer.shares :=
             parseFloat (PortfolioAnalyzer.NewHolding.shares
                           (PortfolioAnalyzer.newHolding st));
           PortfolioAnalyzer.avgPrice :=
             parseFloat (PortfolioAnalyzer.NewHolding.avgPrice
                           (PortfolioAnalyzer.newHolding st));
           PortfolioAnalyzer.currentPrice :=
             parseFloat (PortfolioAnalyzer.NewHolding.avgPrice
                           (PortfolioAnalyzer.newHolding st)) |} ].
Proof.
  intros pf up st Hs Hn Ha Hl.
  unfold PortfolioAnalyzer.addHolding.
  rewrite (complete_form st Hs Hn Ha). cbn [PortfolioAnalyzer.holdings].
  rewrite Hl. reflexivity.
Qed.

(** X13 on the form "SCOM", "100", "15": priced at 15. *)
Lemma X13_addHolding_unlisted_ticker_witness :
  PortfolioAnalyzer.holdings
    (PortfolioAnalyzer.addHolding PortfolioAnalyzer.sample_parseFloat
       PortfolioAnalyzer.sample_toUpperCase
       PortfolioAnalyzer.unlisted_form_state)
  = PortfolioAnalyzer.initial_holdings ++
    [ {| PortfolioAnalyzer.symbol := "SCOM";
         PortfolioAnalyzer.shares := int 100;
         PortfolioAnalyzer.avgPrice := int 15;
         PortfolioAnalyzer.currentPrice := int 15 |} ].
Proof.
  refine (X13_addHolding_unlisted_ticker PortfolioAnalyzer.sample_parseFloat
            PortfolioAnalyzer.sample_toUpperCase
            PortfolioAnalyzer.unlisted_form_state _ _ _ _);
    try discriminate; reflexivity.
Defined.

(** X14: adding a holding and then removing the last row gives back the
    holdings there were: [removeHolding] at the old length undoes
    [addHolding]. *)
Theorem X14_remove_undoes_add :
  forall (parseFloat : string -> number) (toUpperCase : string -> string)
         (st : PortfolioAnalyzer.State),
    PortfolioAnalyzer.NewHolding.symbol (PortfolioAnalyzer.newHolding st)
      <> ""%string ->
    PortfolioAnalyzer.NewHolding.shares (PortfolioAnalyzer.newHolding st)
      <> ""%string ->
    PortfolioAnalyzer.NewHolding.avgPrice (PortfolioAnalyzer.newHolding st)
      <> ""%string ->
    PortfolioAnalyzer.removeHolding
      (PortfolioAnalyzer.holdings
         (PortfolioAnalyzer.addHolding parseFloat toUpperCase st))
      (int (Z.of_nat (List.length (PortfolioAnalyzer.holdings st))))
    = PortfolioAnalyzer.holdings st.
Proof.
  intros pf up st Hs Hn Ha.
  destruct (addHolding_complete pf up st (complete_form st Hs Hn Ha))
    as (h & -> & _).
  rewrite removeHolding_split. apply app_nil_r.
Qed.

(** X14 on the form "TSLA", "10", "200" over the initial holdings. *)
Lemma X14_remove_undoes_add_witness :
  PortfolioAnalyzer.removeHolding
    (PortfolioAnalyzer.holdings
       (PortfolioAnalyzer.addHolding PortfolioAnalyzer.sample_parseFloat
          PortfolioAnalyzer.sample_toUpperCase
          PortfolioAnalyzer.listed_form_state))
    (int (Z.of_nat (List.length
                      (PortfolioAnalyzer.holdings
                         PortfolioAnalyzer.listed_form_state))))
  = PortfolioAnalyzer.holdings PortfolioAnalyzer.listed_form_state.
Proof.
  refine (X14_remove_undoes_add PortfolioAnalyzer.sample_parseFloat
            PortfolioAnalyzer.sample_toUpperCase
            PortfolioAnalyzer.listed_form_state _ _ _); discriminate.
Defined.

(** ** The growth and annuity terms *)

Section Terms.

Variable pow_approx : Qc -> Qc -> number.

Lemma this_div (x m : Qc) : (this (x / m)%Qc == this x / this m)%Q.
Proof.
  unfold Qcdiv, Qcmult, Qcinv, Q2Qc. cbn [this].
  now rewrite !Qred_correct.
Qed.

Lemma this_monthly_rate (e : Qc) :
  (this (Spec.monthly_rate e) == this e / 1200)%Q.
Proof.
  unfold Spec.monthly_rate. rewrite !this_div, !this_int. field.
Qed.

Lemma is_zero_false_ne (q : Qc) : q <> Qc0 -> is_zero q = false.
Proof.
  intros H. destruct (is_zero q) eqn:E; [ | reflexivity ].
  apply is_zero_true in E. contradiction.
Qed.

Lemma pow_zero_exponent (b : number) (e : Qc) :
  is_zero e = true -> Math_pow pow_approx b (Fin e) = int 1.
Proof. intros H. unfold Math_pow. now rewrite H. Qed.

(** The annuity term at a zero exponent and a non-zero rate is 0. *)
Lemma annuity_term_zero (m r e : Qc) :
  is_zero e = true -> r <> Qc0 ->
  (Fin m * ((Math_pow pow_approx (int 1 + Fin r) (Fin e) - int 1) / Fin r))%js
  = int 0.
Proof.
  intros He Hr. rewrite pow_zero_exponent by exact He.
  cbn [sub neg add int]. unfold div. rewrite (is_zero_false_ne r Hr).
  cbn [mul]. unfold int. change (inject_Z 0) with 0%Q. apply f_equal.
  change (inject_Z 1) with 1%Q. unfold Qcdiv. ring.
Qed.

(** The annuity term at a zero rate and an integer exponent is [NaN]. *)
Lemma annuity_term_zero_rate (m : number) (n : Z) :
  (m * ((Math_pow pow_approx (int 1 + int 0 / int 100 / int 12) (int n)
         - int 1) / (int 0 / int 100 / int 12)))%js = NaN.
Proof.
  replace (int 0 / int 100 / int 12)%js with (int 0)
    by (symmetry; by_evaluation).
  replace (int 1 + int 0)%js with (int 1) by (symmetry; by_evaluation).
  rewrite pow_one_int.
  replace ((int 1 - int 1) / int 0)%js with NaN by reflexivity.
  apply mul_NaN_r.
Qed.

Lemma monthly_rate_ne (e : Qc) : e <> Qc0 -> Spec.monthly_rate e <> Qc0.
Proof.
  intros Hne E. apply Hne. apply Qc_is_canon.
  assert (H : (this (Spec.monthly_rate e) == 0)%Q) by (now rewrite E).
  rewrite this_monthly_rate in H. change (this Qc0) with 0%Q.
  setoid_replace (this e) with (this e / 1200 * 1200)%Q by field.
  rewrite H. reflexivity.
Qed.

End Terms.

(** ** Compound interest and retirement together *)

(** X15: [calculateCompound] has no special case for a zero rate either: with
    integer years and annualReturn = 0 its totalValue, totalEarnings and
    returnMultiple are [NaN], whatever the principal and the contribution
    are; totalContributions is not affected. *)
Theorem X15_compound_zero_rate_yields_NaN :
  forall (pow_approx : Qc -> Qc -> number) (d : Compound.Data) (y : Z),
    Compound.years d = int y ->
    Compound.annualReturn d = int 0 ->
    let r := calculateCompound pow_approx d in
    Compound.totalValue r = NaN
    /\ Compound.totalEarnings r = NaN
    /\ Compound.returnMultiple r = NaN
    /\ Compound.totalContributions r =
         (Compound.principal d
          + Compound.monthlyContribution d * int (y * 12))%js.
Proof.
  intros pa d y Hy He r.
  assert (Ht : Compound.totalValue r = NaN).
  { subst r. unfold calculateCompound. cbn [Compound.totalValue].
    rewrite Hy, He, mul_int, annuity_term_zero_rate. apply add_NaN_r. }
  subst r. unfold calculateCompound in *.
  cbn [Compound.totalValue Compound.totalEarnings Compound.returnMultiple
       Compound.totalContributions] in *.
  rewrite Ht. rewrite Hy, mul_int.
  repeat split.
Qed.

(** X15 on the initial compound form with the rate set to 0. *)
Lemma X15_compound_zero_rate_yields_NaN_witness :
  Compound.totalValue
    (calculateCompound no_approx
       {| Compound.principal := int 10000;
          Compound.monthlyContribution := int 500;
          Compound.annualReturn := int 0;
          Compound.years := int 20 |}) = NaN.
Proof.
  refine (proj1 (X15_compound_zero_rate_yields_NaN no_approx _ 20 _ _));
    reflexivity.
Defined.

(** X16: the two calculators are one projection: [calculateCompound] on the
    retirement form's savings, contribution and rate over
    retirementAge − currentAge years returns the totalAtRetirement of
    [calculateRetirement] as its totalValue, for all inputs. *)
Theorem X16_compound_agrees_with_retirement :
  forall (pow_approx : Qc -> Qc -> number) (d : Retirement.Data),
    Compound.totalValue
      (calculateCompound pow_approx
         {| Compound.principal := Retirement.currentSavings d;
            Compound.monthlyContribution := Retirement.monthlyContribution d;
            Compound.annualReturn := Retirement.expectedReturn d;
            Compound.years :=
              (Retirement.retirementAge d - Retirement.currentAge d)%js |})
    = Retirement.totalAtRetirement (calculateRetirement pow_approx d).
Proof.
  intros pa d. unfold calculateCompound, calculateRetirement.
  cbn [Compound.totalValue Retirement.totalAtRetirement Compound.principal
       Compound.monthlyContribution Compound.annualReturn Compound.years].
  unfold futureCurrentSavings, retirement_futureContributions,
    retirement_monthlyReturn, monthsToRetirement, yearsToRetirement.
  reflexivity.
Qed.

(** ** A goal with no time left *)

Section GoalRate.

Lemma goal_rate (r : RiskTolerance) :
  exists k : Qc, returnRates r = Fin k /\ (Qc0 < k)%Qc.
Proof. destruct r; eexists; split; reflexivity. Qed.

End GoalRate.

(** X21: a goal with a time horizon of 0 months.  For finite amounts
    [calculateGoal] returns totalContributions 0 and expectedReturns 0: both
    exponents are 0 and the future value is the current amount. *)
Theorem X21_goal_zero_horizon :
  forall (pow_approx : Qc -> Qc -> number) (g : Goal.Data) (c m : Qc),
    Goal.timeHorizon g = int 0 ->
    Goal.currentAmount g = Fin c ->
    Goal.monthlyContribution g = Fin m ->
    let r := calculateGoal pow_approx g in
    goal_futureValue pow_approx g = Fin c
    /\ Goal.totalContributions r = int 0
    /\ Goal.expectedReturns r = int 0.
Proof.
  intros pa g c m Hth Hc Hm r.
  destruct (goal_rate (Goal.riskTolerance g)) as (k & Hk & Hpos).
  assert (Hfv : goal_futureValue pa g = Fin c).
  { unfold goal_futureValue. rewrite Hth, Hc, Hm, Hk.
    change (int 0 / int 12)%js
      with (Fin (Q2Qc (inject_Z 0) / Q2Qc (inject_Z 12))%Qc).
    rewrite pow_zero_exponent by reflexivity.
    change (Fin k / int 100 / int 12)%js with (Fin (Spec.monthly_rate k)).
    unfold int at 3.
    rewrite annuity_term_zero; [ | reflexivity | ].
    - unfold int. cbn [mul add]. apply f_equal.
      change (inject_Z 1) with 1%Q. change (inject_Z 0) with 0%Q. ring.
    - apply monthly_rate_ne. intros E. subst k. discriminate Hpos. }
  subst r. unfold calculateGoal.
  cbn [Goal.totalContributions Goal.expectedReturns].
  rewrite Hfv, Hth, Hc, Hm.
  unfold int. cbn [mul add sub neg].
  change (inject_Z 0) with 0%Q.
  repeat split; apply f_equal; ring.
Qed.

(** X21 on the initial goal form with the horizon set to 0. *)
Lemma X21_goal_zero_horizon_witness :
  Goal.expectedReturns
    (calculateGoal no_approx
       {| Goal.goalName := "House Down Payment";
          Goal.targetAmount := int 100000;
          Goal.currentAmount := int 20000;
          Goal.monthlyContribution := int 2000;
          Goal.timeHorizon := int 0;
          Goal.riskTolerance := moderate |}) = int 0.
Proof.
  refine (proj2 (proj2
    (X21_goal_zero_horizon no_approx _ (Q2Qc (inject_Z 20000))
       (Q2Qc (inject_Z 2000)) _ _ _))); reflexivity.
Defined.
